(** * Franchisor command centre: row normalizer and metrics aggregator

    A shallow embedding of [load_sheet_data], [calculate_revenue_metrics]
    and [create_product_analysis] of [franchisor_app.py].

    Conventions of the model:
    - a Python exception is represented by its message [str(e)], the only
      part of it the program looks at;
    - a Python [dict] with string keys is an association list that keeps
      insertion order (updating a key keeps its position);
    - a pandas [DataFrame] is a list of column labels and a list of rows;
    - an [int] or [float64] amount is the rational number the cell holds
      ([Q]), and cells are compared as rationals.  The aggregator is given
      twice: with the sums and quotients of the rationals, for the
      properties that no rounding affects, and, in [Float64], with the
      sums, quotients and [round(2)] of binary64 as parameters, for the
      properties that speak of computed sums and means;
    - the two pandas parsers ([pd.to_numeric] on a string and
      [pd.to_datetime]) are parameters of the normalizer. *)

From Stdlib Require Import String Ascii List Bool Arith ZArith QArith Qround Lia.
From Stdlib Require Import Permutation Sorted OrderedTypeEx.
From Stdlib Require Floats.
Import ListNotations.

Local Close Scope Q_scope.
Local Open Scope string_scope.
Local Open Scope nat_scope.
Local Open Scope list_scope.

(** ** Cell values *)

Inductive value : Type :=
| VStr (s : string)      (* str *)
| VInt (z : Z)           (* int *)
| VFloat (q : Q)         (* float *)
| VNaN                   (* missing value of a numeric or object column *)
| VTime (t : Z)          (* pandas Timestamp, nanoseconds since the epoch *)
| VNaT.                  (* missing value of a datetime column *)

(** [pd.isna] on one cell. *)
Definition isna (v : value) : bool :=
  match v with
  | VNaN | VNaT => true
  | _ => false
  end.

(** ** Python dictionaries with string keys *)

Module Dict.

Definition t : Type := list (string * value).

(** [d[k] = v] *)
Fixpoint set (k : string) (v : value) (d : t) : t :=
  match d with
  | [] => [(k, v)]
  | (k', v') :: d' =>
      if String.eqb k' k then (k, v) :: d' else (k', v') :: set k v d'
  end.

(** [d.get(k)] *)
Fixpoint get (k : string) (d : t) : option value :=
  match d with
  | [] => None
  | (k', v') :: d' => if String.eqb k' k then Some v' else get k d'
  end.

(** [list(d.keys())] *)
Definition keys (d : t) : list string := map fst d.

End Dict.

(** ** Exceptions *)

Inductive result (A : Type) : Type :=
| Ok (a : A)
| Raise (msg : string).

Arguments Ok {A} a.
Arguments Raise {A} msg.

Definition bind {A B : Type} (r : result A) (k : A -> result B) : result B :=
  match r with
  | Ok a => k a
  | Raise msg => Raise msg
  end.

Notation "x <- r ;; k" := (bind r (fun x => k))
  (at level 61, r at next level, right associativity).

(** [needle in s] on strings. *)
Fixpoint contains (needle s : string) : bool :=
  String.prefix needle s ||
  match s with
  | EmptyString => false
  | String _ s' => contains needle s'
  end.

(** ** The remote tabular source (gspread) *)

Record Worksheet : Type := {
  get_all_records : result (list Dict.t);
  get_all_values : result (list (list string))
}.

Record Spreadsheet : Type := {
  worksheet : string -> result Worksheet
}.

Record Client : Type := {
  open : string -> result Spreadsheet
}.

(** ** Configuration *)

Record LocationConfig : Type := {
  sheet_name : string;
  years : list Z;
  months : list (Z * list string)
}.

Definition months_2025_from_may : list string :=
  ["May 25"; "Jun 25"; "Jul 25"; "Aug 25"; "Sep 25"; "Oct 25"; "Nov 25"; "Dec 25"].

Definition LOCATIONS : list (string * LocationConfig) :=
  [ ("Oxford East",
      {| sheet_name := "Oxford East Monthly Tracker";
         years := [2025%Z];
         months := [(2025%Z, months_2025_from_may)] |});
    ("Milton Keynes",
      {| sheet_name := "Milton Keynes Monthly Tracker";
         years := [2025%Z];
         months := [(2025%Z, months_2025_from_may)] |});
    ("Berkhamsted",
      {| sheet_name := "Berkhamsted Monthly Revenue Tracker";
         years := [2025%Z];
         months := [(2025%Z, months_2025_from_may)] |});
    ("Basingstoke",
      {| sheet_name := "Basingstoke Monthly Tracker";
         years := [2025%Z];
         months := [(2025%Z, months_2025_from_may)] |});
    ("Aylesbury",
      {| sheet_name := "Aylesbury Monthly Tracker";
         years := [2023%Z; 2024%Z; 2025%Z];
         months :=
           [ (2023%Z, ["Feb 23"; "Mar 23"; "Apr 23"; "May 23"; "Jun 23"; "Jul 23";
                       "Aug 23"; "Sep 23"; "Oct 23"; "Nov 23"; "Dec 23"]);
             (2024%Z, ["Jan 24"; "Feb 24"; "Mar 24"; "Apr 24"; "May 24"; "Jun 24";
                       "Jul 24"; "Aug 24"; "Sep 24"; "Oct 24"; "Nov 24"; "Dec 24"]);
             (2025%Z, ["Jan 25"; "Feb 25"; "Mar 25"; "Apr 25"] ++ months_2025_from_may) ] |}) ].

(** [LOCATIONS[location]]; a missing key raises [KeyError], whose message is
    the [repr] of the key. *)
Fixpoint lookup_location (location : string) (table : list (string * LocationConfig))
  : result LocationConfig :=
  match table with
  | [] => Raise ("'" ++ location ++ "'")%string
  | (name, cfg) :: rest =>
      if String.eqb name location then Ok cfg else lookup_location location rest
  end.

(** ** Raw-grid fallback (the [except] branch of the retrieval) *)

(** [headers[:4] if len(headers) >= 4 else headers] *)
Definition clean_headers_of (headers : list string) : list string :=
  if 4 <=? length headers then firstn 4 headers else headers.

(** The inner loop [for i, header in enumerate(clean_headers)], started at
    index [i] with the dictionary built so far. *)
Fixpoint fill_row_dict (i : nat) (clean_headers row : list string) (row_dict : Dict.t)
  : Dict.t :=
  match clean_headers with
  | [] => row_dict
  | header :: rest =>
      let cell := if i <? length row then nth i row "" else "" in
      fill_row_dict (S i) rest row (Dict.set header (VStr cell) row_dict)
  end.

Definition row_dict_of (clean_headers row : list string) : Dict.t :=
  fill_row_dict 0 clean_headers row [].

(** The outer loop [for row in rows], with the list [data] built so far. *)
Fixpoint collect_rows (clean_headers : list string) (rows : list (list string))
  (data : list Dict.t) : list Dict.t :=
  match rows with
  | [] => data
  | row :: rest =>
      if length clean_headers <=? length row
      then collect_rows clean_headers rest (data ++ [row_dict_of clean_headers row])
      else collect_rows clean_headers rest data
  end.

Definition raw_grid_fallback (all_values : list (list string)) : list Dict.t :=
  if 1 <? length all_values then
    let headers := hd [] all_values in
    let clean_headers := clean_headers_of headers in
    let rows := tl all_values in
    collect_rows clean_headers rows []
  else [].

(** ** Data frames *)

Record DataFrame : Type := {
  columns : list string;
  rows : list (list value)
}.

(** [pd.DataFrame()] *)
Definition empty_frame : DataFrame := {| columns := []; rows := [] |}.

(** [df.empty]: some axis has length 0. *)
Definition empty (df : DataFrame) : bool :=
  (length (columns df) =? 0) || (length (rows df) =? 0).

(** Column labels of [pd.DataFrame(data)] for a list of dictionaries: the
    keys in order of first appearance. *)
Fixpoint add_new_keys (ks seen : list string) : list string :=
  match ks with
  | [] => seen
  | k :: ks' =>
      if existsb (String.eqb k) seen
      then add_new_keys ks' seen
      else add_new_keys ks' (seen ++ [k])
  end.

Definition column_labels (data : list Dict.t) : list string :=
  fold_left (fun seen d => add_new_keys (Dict.keys d) seen) data [].

Definition cell_of (d : Dict.t) (label : string) : value :=
  match Dict.get label d with
  | Some v => v
  | None => VNaN
  end.

(** [pd.DataFrame(data)] *)
Definition frame_of_records (data : list Dict.t) : DataFrame :=
  let labels := column_labels data in
  {| columns := labels; rows := map (fun d => map (cell_of d) labels) data |}.

(** [df.iloc[:, :4].copy()] *)
Definition iloc_first4 (df : DataFrame) : DataFrame :=
  {| columns := firstn 4 (columns df); rows := map (firstn 4) (rows df) |}.

(** [df.columns = labels]; pandas raises [ValueError] on a length mismatch. *)
Definition set_columns (labels : list string) (df : DataFrame) : result DataFrame :=
  if length labels =? length (columns df)
  then Ok {| columns := labels; rows := rows df |}
  else Raise "Length mismatch".

Fixpoint index_of (label : string) (labels : list string) : option nat :=
  match labels with
  | [] => None
  | l :: rest =>
      if String.eqb l label then Some 0
      else match index_of label rest with
           | Some i => Some (S i)
           | None => None
           end
  end.

(** [df[label]]; a missing label raises [KeyError]. *)
Definition get_column (label : string) (df : DataFrame) : result (list value) :=
  match index_of label (columns df) with
  | Some i => Ok (map (fun r => nth i r VNaN) (rows df))
  | None => Raise ("'" ++ label ++ "'")%string
  end.

Fixpoint replace_nth (i : nat) (v : value) (r : list value) : list value :=
  match r, i with
  | [], _ => []
  | _ :: r', O => v :: r'
  | x :: r', S i' => x :: replace_nth i' v r'
  end.

(** [df[label] = series]: an existing column is overwritten in place, a new
    one is appended on the right. *)
Definition set_column (label : string) (series : list value) (df : DataFrame) : DataFrame :=
  match index_of label (columns df) with
  | Some i =>
      {| columns := columns df;
         rows := map (fun rv => replace_nth i (snd rv) (fst rv)) (combine (rows df) series) |}
  | None =>
      {| columns := columns df ++ [label];
         rows := map (fun rv => fst rv ++ [snd rv]) (combine (rows df) series) |}
  end.

(** [df[label] = scalar] *)
Definition set_scalar (label : string) (v : value) (df : DataFrame) : DataFrame :=
  set_column label (repeat v (length (rows df))) df.

(** [df.dropna(subset=[label])] *)
Definition dropna (label : string) (df : DataFrame) : result DataFrame :=
  match index_of label (columns df) with
  | Some i =>
      Ok {| columns := columns df;
            rows := filter (fun r => negb (isna (nth i r VNaN))) (rows df) |}
  | None => Raise ("'" ++ label ++ "'")%string
  end.

(** [series.fillna(fill)] *)
Definition fillna (fill : value) (series : list value) : list value :=
  map (fun v => if isna v then fill else v) series.

(** ** The row normalizer *)

Section Normalizer.

(** [pd.to_numeric] on a string cell: [None] when the text is not a number. *)
Variable parse_number : string -> option Q.

(** [pd.to_datetime] on one cell of a column: [None] when the cell does not
    parse.  pandas infers the format from the column, so the column is an
    argument too. *)
Variable parse_datetime : list value -> value -> option Z.

(** [pd.to_numeric(series, errors='coerce')]: numbers stay, text is parsed,
    everything else becomes NaN. *)
Definition to_numeric_cell (v : value) : value :=
  match v with
  | VStr s =>
      match parse_number s with
      | Some q => VFloat q
      | None => VNaN
      end
  | VInt z => VFloat (inject_Z z)
  | VFloat q => VFloat q
  | VNaN | VTime _ | VNaT => VNaN
  end.

Definition to_numeric (series : list value) : list value :=
  map to_numeric_cell series.

(** [pd.to_datetime(series, errors='coerce')] *)
Definition to_datetime_cell (series : list value) (v : value) : value :=
  match parse_datetime series v with
  | Some t => VTime t
  | None => VNaT
  end.

Definition to_datetime (series : list value) : list value :=
  map (to_datetime_cell series) series.

(** Lines 124-146: from the retrieved records to the returned frame. *)
Definition normalize (data : list Dict.t) (location : string) (year : Z) (month : string)
  : result DataFrame :=
  let df := frame_of_records data in
  if 4 <=? length (columns df) then
    let df := iloc_first4 df in
    df <- set_columns ["DateTime"; "Product"; "Quantity"; "Amount"] df ;;
    amount <- get_column "Amount" df ;;
    let df := set_column "Amount" (fillna (VFloat 0) (to_numeric amount)) df in
    datetime <- get_column "DateTime" df ;;
    let df := set_column "DateTime" (to_datetime datetime) df in
    df <- dropna "DateTime" df ;;
    let df := set_scalar "Location" (VStr location) df in
    let df := set_scalar "Year" (VInt year) df in
    let df := set_scalar "Month" (VStr month) df in
    Ok df
  else Ok empty_frame.

(** Lines 90-119: the retrieval, with the raw-grid fallback when the
    message of the exception mentions duplicates. *)
Definition fetch (gc : Client) (location month : string) : result (list Dict.t) :=
  cfg <- lookup_location location LOCATIONS ;;
  sheet <- open gc (sheet_name cfg) ;;
  ws <- worksheet sheet month ;;
  match get_all_records ws with
  | Ok data => Ok data
  | Raise e =>
      if contains "duplicates" e then
        all_values <- get_all_values ws ;;
        Ok (raw_grid_fallback all_values)
      else Raise e
  end.

(** The body of the outer [try]. *)
Definition load_sheet_body (gc : Client) (location : string) (year : Z) (month : string)
  : result DataFrame :=
  data <- fetch gc location month ;;
  match data with
  | [] => Ok empty_frame
  | _ :: _ => normalize data location year month
  end.

(** The text passed to [st.error] by the outer [except]. *)
Definition error_message (location month e : string) : string :=
  ("Error loading data for " ++ location ++ " " ++ month ++ ": " ++ e)%string.

(** [load_sheet_data]: the returned frame and the errors shown to the user. *)
Definition load_sheet_data (gc : Client) (location : string) (year : Z) (month : string)
  : DataFrame * list string :=
  match load_sheet_body gc location year month with
  | Ok df => (df, [])
  | Raise e => (empty_frame, [error_message location month e])
  end.

End Normalizer.

(** ** Reference parsers

    Concrete instances of the two parsers, for evaluating the normalizer on
    examples: unsigned decimal integers, and ISO calendar dates
    [YYYY-MM-DD] read as midnight UTC. *)

Module Sample.

Definition digit_of (c : ascii) : option Z :=
  let n := Z.of_nat (nat_of_ascii c) in
  if ((48 <=? n) && (n <=? 57))%Z then Some (n - 48)%Z else None.

Fixpoint digits_value (acc : Z) (s : string) : option Z :=
  match s with
  | EmptyString => Some acc
  | String c s' =>
      match digit_of c with
      | Some d => digits_value (10 * acc + d)%Z s'
      | None => None
      end
  end.

Definition number_of (s : string) : option Z :=
  match s with
  | EmptyString => None
  | _ => digits_value 0 s
  end.

Definition parse_number (s : string) : option Q :=
  option_map inject_Z (number_of s).

Definition is_leap (y : Z) : bool :=
  ((y mod 4 =? 0) && (negb (y mod 100 =? 0) || (y mod 400 =? 0)))%Z.

Definition days_in_month (y m : Z) : Z :=
  (if m =? 2 then (if is_leap y then 29 else 28)
   else if (m =? 4) || (m =? 6) || (m =? 9) || (m =? 11) then 30 else 31)%Z.

(** Days from 1970-01-01 to the given civil date. *)
Definition days_from_civil (y m d : Z) : Z :=
  (let y' := if m <=? 2 then y - 1 else y in
   let era := y' / 400 in
   let yoe := y' - era * 400 in
   let doy := (153 * (if 2 <? m then m - 3 else m + 9) + 2) / 5 + d - 1 in
   let doe := yoe * 365 + yoe / 4 - yoe / 100 + doy in
   era * 146097 + doe - 719468)%Z.

Definition nanoseconds_per_day : Z := 86400000000000.

Definition parse_date (s : string) : option Z :=
  if (String.length s =? 10) && (String.eqb (substring 4 1 s) "-")
     && (String.eqb (substring 7 1 s) "-")
  then
    match number_of (substring 0 4 s), number_of (substring 5 2 s),
          number_of (substring 8 2 s) with
    | Some y, Some m, Some d =>
        if ((1 <=? m) && (m <=? 12) && (1 <=? d) && (d <=? days_in_month y m))%Z
        then Some (days_from_civil y m d * nanoseconds_per_day)%Z
        else None
    | _, _, _ => None
    end
  else None.

Definition parse_datetime (series : list value) (v : value) : option Z :=
  match v with
  | VStr s => parse_date s
  | _ => None
  end.

End Sample.


(** ** Transaction tables

    The frames the aggregator is called on are those returned by the
    normalizer: seven canonical columns, a parsed timestamp, a numeric amount.
    Product names are strings. *)

Record TransactionRow : Type := {
  DateTime : Z;
  Product : string;
  Quantity : value;
  Amount : Q;
  Location : string;
  Year : Z;
  Month : string
}.

Definition TransactionTable : Type := list TransactionRow.

Definition canonical_columns : list string :=
  ["DateTime"; "Product"; "Quantity"; "Amount"; "Location"; "Year"; "Month"].

Definition row_of_values (r : list value) : option TransactionRow :=
  match r with
  | [VTime t; VStr p; q; VFloat a; VStr l; VInt y; VStr m] =>
      Some {| DateTime := t; Product := p; Quantity := q; Amount := a;
              Location := l; Year := y; Month := m |}
  | _ => None
  end.

Fixpoint rows_of_values (rs : list (list value)) : option TransactionTable :=
  match rs with
  | [] => Some []
  | r :: rs' =>
      match row_of_values r, rows_of_values rs' with
      | Some t, Some ts => Some (t :: ts)
      | _, _ => None
      end
  end.

(** The typed view of a frame: an empty frame is the empty table. *)
Definition table_of_frame (df : DataFrame) : option TransactionTable :=
  if empty df then Some [] else rows_of_values (rows df).

(** ** The metrics aggregator

    With the sums and quotients of the rationals.  The same function with the
    binary64 operations as parameters is [Float64.calculate_revenue_metrics]
    below. *)

Record RevenueMetrics : Type := {
  total_revenue : Q;
  transaction_count : nat;
  avg_transaction : Q;
  unique_products : nat;
  top_product : string;
  daily_average : Q
}.

(** [series.sum()] *)
Definition series_sum (xs : list Q) : Q := fold_left Qplus xs 0%Q.

(** [series.nunique()] *)
Definition nunique (xs : list string) : nat := length (nodup string_dec xs).

(** Group keys of [groupby('Product')]: the distinct product names in
    ascending order. *)
Fixpoint insert_key (k : string) (keys : list string) : list string :=
  match keys with
  | [] => [k]
  | k' :: rest =>
      match String.compare k k' with
      | Lt => k :: keys
      | Eq => keys
      | Gt => k' :: insert_key k rest
      end
  end.

Definition group_keys (df : TransactionTable) : list string :=
  fold_right insert_key [] (map Product df).

(** The amounts of the rows of one group, in row order. *)
Definition group_amounts (k : string) (df : TransactionTable) : list Q :=
  map Amount (filter (fun r => String.eqb (Product r) k) df).

(** The summed amount of one product. *)
Definition product_total (k : string) (df : TransactionTable) : Q :=
  series_sum (group_amounts k df).

(** [df.groupby('Product')['Amount'].sum()] *)
Definition product_revenue (df : TransactionTable) : list (string * Q) :=
  map (fun k => (k, product_total k df)) (group_keys df).

Definition Qlt_bool (a b : Q) : bool := negb (Qle_bool b a).

(** [series.idxmax()]: the label of the first occurrence of the maximum.
    The scan keeps the best entry seen so far and replaces it only by a
    strictly larger one. *)
Fixpoint idxmax_from (best : string * Q) (s : list (string * Q)) : string * Q :=
  match s with
  | [] => best
  | kv :: rest =>
      if Qlt_bool (snd best) (snd kv) then idxmax_from kv rest
      else idxmax_from best rest
  end.

Definition idxmax (s : list (string * Q)) : option string :=
  match s with
  | [] => None
  | kv :: rest => Some (fst (idxmax_from kv rest))
  end.

Definition calculate_revenue_metrics (df : TransactionTable) : RevenueMetrics :=
  match df with
  | [] =>
      {| total_revenue := 0; transaction_count := 0; avg_transaction := 0;
         unique_products := 0; top_product := "N/A"; daily_average := 0 |}
  | _ :: _ =>
      let total_revenue := series_sum (map Amount df) in
      let transaction_count := length df in
      let avg_transaction :=
        if 0 <? transaction_count
        then (total_revenue / inject_Z (Z.of_nat transaction_count))%Q
        else 0%Q in
      let unique_products := nunique (map Product df) in
      let product_revenue := product_revenue df in
      let top_product :=
        match idxmax product_revenue with
        | Some k => k
        | None => "N/A"
        end in
      let daily_average := (total_revenue / 30)%Q in
      {| total_revenue := total_revenue;
         transaction_count := transaction_count;
         avg_transaction := avg_transaction;
         unique_products := unique_products;
         top_product := top_product;
         daily_average := daily_average |}
  end.

(** ** Product analysis

    With the sums, means and decimal rounding of the rationals; the lines
    computed in binary64 are those of [Float64.create_product_analysis]
    below. *)

(** One line of [product_stats]: the index label and the three columns. *)
Record ProductStats : Type := {
  product : string;
  Total_Revenue : Q;
  Transaction_Count : nat;
  Avg_Value : Q
}.

(** [numpy.rint]: the nearest integer, halves to the even one. *)
Definition rint (q : Q) : Z :=
  let f := Qfloor q in
  match Qcompare (q - inject_Z f) (1 # 2) with
  | Lt => f
  | Gt => (f + 1)%Z
  | Eq => if Z.even f then f else (f + 1)%Z
  end.

(** [round(2)] on one number. *)
Definition round_2 (q : Q) : Q := (inject_Z (rint (q * 100)) / 100)%Q.

(** [series.mean()] of a group. *)
Definition series_mean (xs : list Q) : Q :=
  (series_sum xs / inject_Z (Z.of_nat (length xs)))%Q.

(** [df.groupby('Product').agg({'Amount': ['sum', 'count', 'mean']}).round(2)] *)
Definition aggregate_group (df : TransactionTable) (k : string) : ProductStats :=
  let amounts := group_amounts k df in
  {| product := k;
     Total_Revenue := round_2 (product_total k df);
     Transaction_Count := length amounts;
     Avg_Value := round_2 (series_mean amounts) |}.

Definition grouped_stats (df : TransactionTable) : list ProductStats :=
  map (aggregate_group df) (group_keys df).

Definition revenue_ge (a b : ProductStats) : Prop :=
  (Total_Revenue b <= Total_Revenue a)%Q.

(** [sort_values('Total Revenue', ascending=False)] with the default
    [kind='quicksort']: the result is a rearrangement of the lines in
    descending order of the key; pandas does not say in which order lines with
    equal keys come out. *)
Class SortValues : Type := {
  sort_values : list ProductStats -> list ProductStats;
  sort_values_permutation : forall l, Permutation l (sort_values l);
  sort_values_descending : forall l, StronglySorted revenue_ge (sort_values l)
}.

(** The second component returned by [create_product_analysis] (the first is
    the chart). *)
Definition create_product_analysis `{SortValues} (df : TransactionTable)
  : list ProductStats :=
  match df with
  | [] => []
  | _ :: _ => sort_values (grouped_stats df)
  end.



(** A sort that keeps lines with equal keys in their incoming order. *)
Fixpoint insert_descending (x : ProductStats) (l : list ProductStats) : list ProductStats :=
  match l with
  | [] => [x]
  | y :: l' =>
      if Qle_bool (Total_Revenue y) (Total_Revenue x) then x :: l
      else y :: insert_descending x l'
  end.

Definition stable_sort_descending (l : list ProductStats) : list ProductStats :=
  fold_right insert_descending [] l.

(** ** What the normalizer computes, stated on the retrieved records *)

Section NormalizerSpec.

Variable parse_number : string -> option Q.
Variable parse_datetime : list value -> value -> option Z.

(** The cell of record [d] in the [i]-th column of the frame built from
    [data]. *)
Definition raw_cell (data : list Dict.t) (i : nat) (d : Dict.t) : value :=
  cell_of d (nth i (column_labels data) "").

(** The first column of the frame, as handed to [pd.to_datetime]. *)
Definition raw_timestamps (data : list Dict.t) : list value :=
  map (raw_cell data 0) data.

Definition parsed_timestamp (data : list Dict.t) (d : Dict.t) : option Z :=
  parse_datetime (raw_timestamps data) (raw_cell data 0 d).

(** The timestamp of the record does not parse. *)
Definition timestamp_fails (data : list Dict.t) (d : Dict.t) : bool :=
  match parsed_timestamp data d with
  | Some _ => false
  | None => true
  end.

(** Numeric coercion of an amount cell: [None] when it fails. *)
Definition numeric_of (v : value) : option Q :=
  match v with
  | VStr s => parse_number s
  | VInt z => Some (inject_Z z)
  | VFloat q => Some q
  | VNaN | VTime _ | VNaT => None
  end.

Definition coerced_amount (v : value) : Q :=
  match numeric_of v with
  | Some q => q
  | None => 0%Q
  end.

(** The row produced for a record whose timestamp parsed to [t]. *)
Definition stamped_row (data : list Dict.t) (location : string) (year : Z)
  (month : string) (d : Dict.t) (t : Z) : list value :=
  [ VTime t; raw_cell data 1 d; raw_cell data 2 d;
    VFloat (coerced_amount (raw_cell data 3 d));
    VStr location; VInt year; VStr month ].

Definition normalized_rows (data : list Dict.t) (location : string) (year : Z)
  (month : string) : list (list value) :=
  flat_map (fun d =>
              match parsed_timestamp data d with
              | Some t => [stamped_row data location year month d t]
              | None => []
              end) data.

End NormalizerSpec.


(** ** The raw-grid fallback, stated on the grid *)

(** [dict(zip(headers, row))] *)
Definition zip_record (headers row : list string) : Dict.t :=
  fold_left (fun d hc => Dict.set (fst hc) (VStr (snd hc)) d) (combine headers row) [].

(** A data row is kept when it has a cell for every retained header. *)
Definition row_is_kept (headers row : list string) : bool :=
  length (firstn 4 headers) <=? length row.

(** A data row extended on the right with empty strings up to [n] cells. *)
Definition pad_row (n : nat) (row : list string) : list string :=
  row ++ repeat "" (n - length row).

(** Every data row of the grid gives one record, short rows being padded. *)
Definition fallback_pads_every_row (all_values : list (list string)) : Prop :=
  let headers := firstn 4 (hd [] all_values) in
  raw_grid_fallback all_values
  = map (fun row => zip_record headers (pad_row (length headers) row)) (tl all_values).

(** ** Failures of the retrieval *)

(** The ways the remote source can fail for a period, with the message of the
    exception that leaves the retrieval. *)
Inductive fetch_failure (gc : Client) (location month : string) : string -> Prop :=
| unknown_location e :
    lookup_location location LOCATIONS = Raise e ->
    fetch_failure gc location month e
| document_not_found cfg e :
    lookup_location location LOCATIONS = Ok cfg ->
    open gc (sheet_name cfg) = Raise e ->
    fetch_failure gc location month e
| tab_not_found cfg sheet e :
    lookup_location location LOCATIONS = Ok cfg ->
    open gc (sheet_name cfg) = Ok sheet ->
    worksheet sheet month = Raise e ->
    fetch_failure gc location month e
| records_failed cfg sheet ws e :
    lookup_location location LOCATIONS = Ok cfg ->
    open gc (sheet_name cfg) = Ok sheet ->
    worksheet sheet month = Ok ws ->
    get_all_records ws = Raise e ->
    contains "duplicates" e = false ->
    fetch_failure gc location month e
| grid_failed cfg sheet ws e0 e :
    lookup_location location LOCATIONS = Ok cfg ->
    open gc (sheet_name cfg) = Ok sheet ->
    worksheet sheet month = Ok ws ->
    get_all_records ws = Raise e0 ->
    contains "duplicates" e0 = true ->
    get_all_values ws = Raise e ->
    fetch_failure gc location month e.

(** The tab exists and holds no data row: the keyed read returns no record,
    or it fails on duplicated headers and the grid has at most its header
    row. *)
Definition zero_data_rows (ws : Worksheet) : Prop :=
  get_all_records ws = Ok []
  \/ exists e grid,
       get_all_records ws = Raise e
       /\ contains "duplicates" e = true
       /\ get_all_values ws = Ok grid
       /\ length grid <= 1.

(** The metrics of the empty table. *)
Definition no_data_metrics : RevenueMetrics :=
  {| total_revenue := 0; transaction_count := 0; avg_transaction := 0;
     unique_products := 0; top_product := "N/A"; daily_average := 0 |}.

(** ** Example inputs *)

Module Examples.

(** A client whose every tab answers with the given worksheet. *)
Definition client_of (ws : Worksheet) : Client :=
  {| open := fun _ => Ok {| worksheet := fun _ => Ok ws |} |}.

Definition record (date item : string) (qty : Z) (price : value) : Dict.t :=
  [("Date", VStr date); ("Item", VStr item); ("Qty", VInt qty); ("Price", price);
   ("Notes", VStr "")].

(** Three sales: a bad amount, a bad timestamp, a clean row. *)
Definition may_records : list Dict.t :=
  [ record "2025-05-01" "Day Pass" 1 (VStr "abc");
    record "not-a-date" "Day Pass" 1 (VInt 12);
    record "2025-05-02" "Protein Bar" 2 (VInt 5) ].

Definition may_sheet : Worksheet :=
  {| get_all_records := Ok may_records; get_all_values := Raise "unused" |}.

(** A tab with three columns only. *)
Definition narrow_records : list Dict.t :=
  [ [("Date", VStr "2025-05-01"); ("Item", VStr "Day Pass"); ("Price", VInt 12)] ].

Definition narrow_sheet : Worksheet :=
  {| get_all_records := Ok narrow_records; get_all_values := Raise "unused" |}.

(** A tab without data rows. *)
Definition blank_sheet : Worksheet :=
  {| get_all_records := Ok []; get_all_values := Ok [] |}.

(** A tab with a header row of duplicated headers and nothing below it. *)
Definition header_only_sheet : Worksheet :=
  {| get_all_records := Raise "the header row in the worksheet contains duplicates: ['']";
     get_all_values := Ok [["Date"; "Item"; "Qty"; "Price"; ""; ""]] |}.

(** A tab whose header row has duplicated empty headers. *)
Definition duplicate_header_error : string :=
  "the header row in the worksheet contains duplicates: ['']".

Definition ragged_grid : list (list string) :=
  [ ["Date"; "Item"; "Qty"; "Price"; ""; ""];
    ["2025-05-01"; "Day Pass"; "1"; "12"; ""; ""];
    ["2025-05-02"; "Protein Bar"] ].

Definition ragged_sheet : Worksheet :=
  {| get_all_records := Raise duplicate_header_error;
     get_all_values := Ok ragged_grid |}.

(** A source whose documents cannot be opened. *)
Definition offline_client : Client :=
  {| open := fun _ => Raise "connection reset" |}.

Definition sale (p : string) (a : Q) : TransactionRow :=
  {| DateTime := 1746057600000000000; Product := p; Quantity := VInt 1; Amount := a;
     Location := "Aylesbury"; Year := 2025; Month := "May 25" |}.


(** Two products with the same revenue. *)
Definition tied : TransactionTable :=
  [sale "Protein Bar" 5; sale "Day Pass" 5].

End Examples.

(** * Further parts of the program *)

(** ** Daily revenue chart *)

Definition ns_per_day : Z := 86400000000000.

(** [timestamp.date()] of a timestamp without time zone, as the number of
    days since 1970-01-01. *)
Definition date_of (t : Z) : Z := (t / ns_per_day)%Z.

(** Group keys of [groupby(df['DateTime'].dt.date)]: the distinct dates in
    ascending order. *)
Fixpoint insert_date (d : Z) (dates : list Z) : list Z :=
  match dates with
  | [] => [d]
  | d' :: rest =>
      match Z.compare d d' with
      | Lt => d :: dates
      | Eq => dates
      | Gt => d' :: insert_date d rest
      end
  end.

Definition group_dates (df : TransactionTable) : list Z :=
  fold_right insert_date [] (map (fun r => date_of (DateTime r)) df).

(** The amounts of the rows of one date, in row order. *)
Definition date_amounts (d : Z) (df : TransactionTable) : list Q :=
  map Amount (filter (fun r => Z.eqb (date_of (DateTime r)) d) df).

(** [df.groupby(df['DateTime'].dt.date)['Amount'].sum().reset_index()] *)
Definition daily_revenue (df : TransactionTable) : list (Z * Q) :=
  map (fun d => (d, series_sum (date_amounts d df))) (group_dates df).

(** The points (Date, Revenue) of the figure returned by
    [create_revenue_chart]; the empty figure has none. *)
Definition create_revenue_chart (df : TransactionTable) : list (Z * Q) :=
  match df with
  | [] => []
  | _ :: _ => daily_revenue df
  end.

(** ** Groups *)

(** The rows of [l] whose key is [k], in row order. *)
Definition group_of {A K : Type} (key : A -> K) (eqb : K -> K -> bool) (l : list A) (k : K)
  : list A :=
  filter (fun r => eqb (key r) k) l.

(** ** The selectors of [main] *)

(** [list(LOCATIONS.keys())] *)
Definition location_options : list string := map fst LOCATIONS.

(** [months[year]]; [None] stands for the [KeyError]. *)
Fixpoint lookup_months (year : Z) (table : list (Z * list string)) : option (list string) :=
  match table with
  | [] => None
  | (y, labels) :: rest => if Z.eqb y year then Some labels else lookup_months year rest
  end.

(** [LOCATIONS[location]["years"]] *)
Definition available_years (location : string) : option (list Z) :=
  match lookup_location location LOCATIONS with
  | Ok cfg => Some (years cfg)
  | Raise _ => None
  end.

(** [LOCATIONS[location]["months"][year]] *)
Definition available_months (location : string) (year : Z) : option (list string) :=
  match lookup_location location LOCATIONS with
  | Ok cfg => lookup_months year (months cfg)
  | Raise _ => None
  end.

(** [index=len(options)-1], the preselected option of a selector. *)
Definition default_index {A : Type} (options : list A) : Z :=
  (Z.of_nat (length options) - 1)%Z.

(** ** Authentication *)

(** The fields of the service account that [init_gspread] reads. *)
Definition credential_fields : list string :=
  ["type"; "project_id"; "private_key_id"; "private_key"; "client_email";
   "client_id"; "auth_uri"; "token_uri"].

Definition scopes : list string :=
  ["https://www.googleapis.com/auth/spreadsheets.readonly";
   "https://www.googleapis.com/auth/drive.readonly"].

Section Authentication.

(** The credentials object of [google.oauth2]. *)
Variable Credentials : Type.

(** [st.secrets["gcp_service_account"][field]] *)
Variable secret : string -> result string.

(** [Credentials.from_service_account_info(info, scopes=scopes)] *)
Variable from_service_account_info :
  list (string * string) -> list string -> result Credentials.

(** [gspread.authorize(credentials)] *)
Variable authorize : Credentials -> result Client.

(** The body of the [try]: the dictionary literal reads the eight fields in
    order. *)
Definition init_gspread_body : result Client :=
  type <- secret "type" ;;
  project_id <- secret "project_id" ;;
  private_key_id <- secret "private_key_id" ;;
  private_key <- secret "private_key" ;;
  client_email <- secret "client_email" ;;
  client_id <- secret "client_id" ;;
  auth_uri <- secret "auth_uri" ;;
  token_uri <- secret "token_uri" ;;
  let credentials_dict :=
    [ ("type", type); ("project_id", project_id);
      ("private_key_id", private_key_id); ("private_key", private_key);
      ("client_email", client_email); ("client_id", client_id);
      ("auth_uri", auth_uri); ("token_uri", token_uri) ] in
  credentials <- from_service_account_info credentials_dict scopes ;;
  authorize credentials.

(** [init_gspread], without the cache of [st.cache_resource]: the returned
    client ([None] on failure) and the errors shown to the user. *)
Definition init_gspread : option Client * list string :=
  match init_gspread_body with
  | Ok gc => (Some gc, [])
  | Raise e => (None, [("Authentication failed: " ++ e)%string])
  end.

End Authentication.

(** ** Records keyed by a header row *)

(** The records [get_all_records] returns for a header row and data rows:
    each row zipped with the headers. *)
Definition keyed_records (headers : list string) (rows : list (list value))
  : list Dict.t :=
  map (combine headers) rows.

(** The row the normalizer makes of the cells of a data row, by position. *)
Definition positional_row (parse_number : string -> option Q) (location : string)
  (year : Z) (month : string) (row : list value) (t : Z) : list value :=
  [ VTime t; nth 1 row VNaN; nth 2 row VNaN;
    VFloat (coerced_amount parse_number (nth 3 row VNaN));
    VStr location; VInt year; VStr month ].

(** ** More example inputs *)

Module MoreExamples.

Definition sale_at (t : Z) (a : Q) : TransactionRow :=
  {| DateTime := t; Product := "Day Pass"; Quantity := VInt 1; Amount := a;
     Location := "Aylesbury"; Year := 2025; Month := "May 25" |}.

(** 30 on 2025-05-02 at 10:00, then 50 and 70 on 2025-05-01 at 10:00 and
    15:00. *)
Definition two_days : TransactionTable :=
  [ sale_at 1746180000000000000 30;
    sale_at 1746093600000000000 50;
    sale_at 1746111600000000000 70 ].

(** A tab whose second and third headers are both empty, with two complete
    data rows. *)
Definition blank_headers_grid : list (list string) :=
  [ ["Date"; ""; ""; "Price"];
    ["2025-05-01"; "Day Pass"; "1"; "12"];
    ["2025-05-02"; "Protein Bar"; "2"; "5"] ].

Definition blank_headers_sheet : Worksheet :=
  {| get_all_records := Raise Examples.duplicate_header_error;
     get_all_values := Ok blank_headers_grid |}.

(** The May records as a header row and data rows, and the same rows under
    other headers. *)
Definition may_rows : list (list value) :=
  [ [VStr "2025-05-01"; VStr "Day Pass"; VInt 1; VStr "abc"; VStr ""];
    [VStr "not-a-date"; VStr "Day Pass"; VInt 1; VInt 12; VStr ""];
    [VStr "2025-05-02"; VStr "Protein Bar"; VInt 2; VInt 5; VStr ""] ].

Definition may_headers : list string := ["Date"; "Item"; "Qty"; "Price"; "Notes"].

Definition keyed_sheet (headers : list string) : Worksheet :=
  {| get_all_records := Ok (keyed_records headers may_rows);
     get_all_values := Raise "unused" |}.

(** Secrets without a private key. *)
Definition secrets_without_key (field : string) : result string :=
  if String.eqb field "private_key" then Raise "private_key" else Ok "x".

End MoreExamples.

(** * The aggregator on float64 columns

    A float64 or int64 cell holds a rational number, and comparing two cells
    compares these numbers.  The sum of a column, a quotient and [round(2)]
    are computed in binary64: they round their results, and a sum depends on
    the order in which pandas adds the terms.  Here these operations are
    parameters of the aggregator, as the parsers are parameters of the
    normalizer.  Cells are finite: no NaN, no infinity. *)

Record Arithmetic : Type := {
  column_sum : list Q -> Q;     (* [series.sum()] *)
  group_sum : list Q -> Q;      (* the sum of one group, [groupby(...).sum()] and agg ['sum'] *)
  group_mean : list Q -> Q;     (* the mean of one group, agg ['mean'] *)
  true_divide : Q -> Q -> Q;    (* [x / y] *)
  round_2dp : Q -> Q            (* [round(2)] on one cell *)
}.

(** The arithmetic of the exact rationals: the one of the definitions above. *)
Definition exact_arithmetic : Arithmetic :=
  {| column_sum := series_sum;
     group_sum := series_sum;
     group_mean := series_mean;
     true_divide := Qdiv;
     round_2dp := round_2 |}.

(** [sort_values('Total Revenue', ascending=False)] with the default
    [kind='quicksort'], as numpy runs it: an array of at most 16 entries is
    sorted by insertion, which keeps equal keys in their incoming order; a
    longer array is partitioned first, and nothing is promised about the
    order of its equal keys. *)
Definition numpy_sort `{SortValues} (l : list ProductStats) : list ProductStats :=
  if length l <=? 16 then stable_sort_descending l else sort_values l.

Module Float64.

(** [df.groupby('Product')['Amount'].sum()] *)
Definition product_revenue (A : Arithmetic) (df : TransactionTable) : list (string * Q) :=
  map (fun k => (k, group_sum A (group_amounts k df))) (group_keys df).

Definition calculate_revenue_metrics (A : Arithmetic) (df : TransactionTable)
  : RevenueMetrics :=
  match df with
  | [] =>
      {| total_revenue := 0; transaction_count := 0; avg_transaction := 0;
         unique_products := 0; top_product := "N/A"; daily_average := 0 |}
  | _ :: _ =>
      let total_revenue := column_sum A (map Amount df) in
      let transaction_count := length df in
      let avg_transaction :=
        if 0 <? transaction_count
        then true_divide A total_revenue (inject_Z (Z.of_nat transaction_count))
        else 0%Q in
      let unique_products := nunique (map Product df) in
      let product_revenue := product_revenue A df in
      let top_product :=
        match idxmax product_revenue with
        | Some k => k
        | None => "N/A"
        end in
      let daily_average := true_divide A total_revenue 30 in
      {| total_revenue := total_revenue;
         transaction_count := transaction_count;
         avg_transaction := avg_transaction;
         unique_products := unique_products;
         top_product := top_product;
         daily_average := daily_average |}
  end.

(** [df.groupby('Product').agg({'Amount': ['sum', 'count', 'mean']}).round(2)]:
    the count is an integer column, which [round(2)] leaves as it is. *)
Definition aggregate_group (A : Arithmetic) (df : TransactionTable) (k : string)
  : ProductStats :=
  let amounts := group_amounts k df in
  {| product := k;
     Total_Revenue := round_2dp A (group_sum A amounts);
     Transaction_Count := length amounts;
     Avg_Value := round_2dp A (group_mean A amounts) |}.

Definition grouped_stats (A : Arithmetic) (df : TransactionTable) : list ProductStats :=
  map (aggregate_group A df) (group_keys df).

(** The second component returned by [create_product_analysis]. *)
Definition create_product_analysis (A : Arithmetic) `{SortValues} (df : TransactionTable)
  : list ProductStats :=
  match df with
  | [] => []
  | _ :: _ => numpy_sort (grouped_stats A df)
  end.

End Float64.

(** ** Binary64 arithmetic

    The operations computed with the primitive binary64 numbers of Rocq, for
    evaluating the aggregator on examples.  A sum adds its terms from left to
    right, starting from 0. *)

Module Binary64.

(** The odd part of a positive number and the power of two it leaves out. *)
Fixpoint odd_part (p : positive) : positive * Z :=
  match p with
  | xO p' => let (m, t) := odd_part p' in (m, (t + 1)%Z)
  | _ => (p, 0%Z)
  end.

(** The float [n * 2 ^ e]; exact when binary64 holds that number. *)
Definition of_dyadic (n e : Z) : PrimFloat.float :=
  match n with
  | Z0 => PrimFloat.zero
  | Zpos p =>
      let (m, t) := odd_part p in
      FloatOps.Z.ldexp (PrimFloat.of_uint63 (Uint63.of_Z (Zpos m))) (e + t)
  | Zneg p =>
      let (m, t) := odd_part p in
      PrimFloat.opp (FloatOps.Z.ldexp (PrimFloat.of_uint63 (Uint63.of_Z (Zpos m))) (e + t))
  end.

Definition of_Z (z : Z) : PrimFloat.float := of_dyadic z 0.

(** The float nearest to a rational: the number itself when binary64 holds
    it, and otherwise the correctly rounded quotient of the numerator by the
    denominator, both below 2^53. *)
Definition of_Q (q : Q) : PrimFloat.float :=
  match odd_part (Qden q) with
  | (xH, k) => of_dyadic (Qnum q) (- k)
  | _ => PrimFloat.div (of_Z (Qnum q)) (of_Z (Zpos (Qden q)))
  end.

(** The rational a finite float holds. *)
Definition to_Q (f : PrimFloat.float) : Q :=
  match FloatOps.Prim2SF f with
  | SpecFloat.S754_finite s m e =>
      let n := if s then Zneg m else Zpos m in
      if (0 <=? e)%Z then inject_Z (n * 2 ^ e)
      else (n # Z.to_pos (2 ^ (- e)))%Q
  | _ => 0%Q
  end.

(** The binary64 number nearest to [q], as a rational. *)
Definition nearest (q : Q) : Q := to_Q (of_Q q).

(** [numpy.rint] on a float. *)
Definition rint_float (f : PrimFloat.float) : PrimFloat.float := of_Z (rint (to_Q f)).

(** [numpy.round(x, 2)]: scale by 100, round to an integer, scale back. *)
Definition round_float (f : PrimFloat.float) : PrimFloat.float :=
  PrimFloat.div (rint_float (PrimFloat.mul f (of_Z 100))) (of_Z 100).

Definition sum_float (xs : list PrimFloat.float) : PrimFloat.float :=
  fold_left PrimFloat.add xs PrimFloat.zero.

Definition mean_float (xs : list PrimFloat.float) : PrimFloat.float :=
  PrimFloat.div (sum_float xs) (of_Z (Z.of_nat (length xs))).

Definition arithmetic : Arithmetic :=
  {| column_sum := fun xs => to_Q (sum_float (map of_Q xs));
     group_sum := fun xs => to_Q (sum_float (map of_Q xs));
     group_mean := fun xs => to_Q (mean_float (map of_Q xs));
     true_divide := fun x y => to_Q (PrimFloat.div (of_Q x) (of_Q y));
     round_2dp := fun x => to_Q (round_float (of_Q x)) |}.

End Binary64.

(** ** Example tables of binary64 amounts *)

Module FloatExamples.

(** The binary64 amount written [n/10] in the sheet. *)
Definition tenths (n : Z) : Q := Binary64.nearest (n # 10).

(** In binary64, 0.3 + 0.4 is 0.7; the numbers these three floats hold add up
    to slightly more than the one 0.7 holds. *)
Definition rounded_tie : TransactionTable :=
  [ Examples.sale "b" (tenths 3); Examples.sale "a" (tenths 7);
    Examples.sale "b" (tenths 4) ].

(** Two products sold for the same three amounts, in opposite orders. *)
Definition mirrored : TransactionTable :=
  [ Examples.sale "a" (tenths 3); Examples.sale "b" (tenths 1);
    Examples.sale "a" (tenths 2); Examples.sale "b" (tenths 2);
    Examples.sale "a" (tenths 1); Examples.sale "b" (tenths 3) ].

(** Three products, two of them with the same revenue. *)
Definition three_products : TransactionTable :=
  [ Examples.sale "Protein Bar" 5; Examples.sale "Day Pass" 12;
    Examples.sale "Coffee" 2; Examples.sale "Coffee" 3 ].

End FloatExamples.

(** * Properties *)

(** ** Lists *)

Lemma combine_map_self {A B : Type} (g : A -> B) (l : list A) :
  combine l (map g l) = map (fun x => (x, g x)) l.
Proof.
  induction l as [|x l IH]; simpl; [reflexivity | now rewrite IH].
Qed.

Lemma combine_repeat {A B : Type} (v : B) (l : list A) :
  combine l (repeat v (length l)) = map (fun x => (x, v)) l.
Proof.
  induction l as [|x l IH]; simpl; [reflexivity | now rewrite IH].
Qed.

(** ** The normalizer in closed form *)

Section NormalizerFacts.

Variable parse_number : string -> option Q.
Variable parse_datetime : list value -> value -> option Z.

Lemma to_numeric_fillna (v : value) :
  (if isna (to_numeric_cell parse_number v) then VFloat 0
   else to_numeric_cell parse_number v)
  = VFloat (coerced_amount parse_number v).
Proof.
  unfold coerced_amount, numeric_of, to_numeric_cell.
  destruct v; simpl; try reflexivity.
  destruct (parse_number s); reflexivity.
Qed.

Lemma set_column_existing (label : string) (i : nat) (f : value -> value)
  (labels : list string) (rs : list (list value)) :
  index_of label labels = Some i ->
  set_column label (map f (map (fun r => nth i r VNaN) rs))
    {| columns := labels; rows := rs |}
  = {| columns := labels;
       rows := map (fun r => replace_nth i (f (nth i r VNaN)) r) rs |}.
Proof.
  intros Hi. unfold set_column; simpl. rewrite Hi.
  rewrite map_map, combine_map_self, map_map. reflexivity.
Qed.

Lemma set_scalar_new (label : string) (v : value)
  (labels : list string) (rs : list (list value)) :
  index_of label labels = None ->
  set_scalar label v {| columns := labels; rows := rs |}
  = {| columns := labels ++ [label]; rows := map (fun r => r ++ [v]) rs |}.
Proof.
  intros Hi. unfold set_scalar, set_column; simpl. rewrite Hi.
  rewrite combine_repeat, map_map. reflexivity.
Qed.

(** Dropping the rows without a timestamp and stamping the others, on rows
    of exactly four cells. *)
Lemma stamp_surviving (series : list value) (location : string) (year : Z)
  (month : string) (c0 c1 c2 c3 : Dict.t -> value) (data : list Dict.t) :
  map (fun r => ((r ++ [VStr location]) ++ [VInt year]) ++ [VStr month])
    (filter (fun r => negb (isna (nth 0 r VNaN)))
       (map (fun d => [ to_datetime_cell parse_datetime series (c0 d); c1 d; c2 d;
                        VFloat (coerced_amount parse_number (c3 d)) ]) data))
  = flat_map (fun d =>
                match parse_datetime series (c0 d) with
                | Some t => [[ VTime t; c1 d; c2 d;
                               VFloat (coerced_amount parse_number (c3 d));
                               VStr location; VInt year; VStr month ]]
                | None => []
                end) data.
Proof.
  unfold to_datetime_cell.
  induction data as [|d data IH]; simpl; [reflexivity|].
  destruct (parse_datetime series (c0 d)); simpl; now rewrite IH.
Qed.

(** A frame with at least four columns goes through the whole pipeline. *)
Lemma normalize_wide (data : list Dict.t) (location : string) (year : Z) (month : string) :
  4 <= length (column_labels data) ->
  normalize parse_number parse_datetime data location year month
  = Ok {| columns := canonical_columns;
          rows := normalized_rows parse_number parse_datetime data location year month |}.
Proof.
  intros Hwide.
  unfold normalize, normalized_rows, stamped_row, parsed_timestamp, raw_timestamps, raw_cell.
  unfold frame_of_records; cbn [columns].
  destruct (column_labels data) as [|l0 [|l1 [|l2 [|l3 rest]]]] eqn:Hlabels;
    simpl in Hwide; try lia.
  replace (4 <=? length (l0 :: l1 :: l2 :: l3 :: rest)) with true
    by (symmetry; apply Nat.leb_le; simpl; lia).
  unfold iloc_first4; cbn [columns rows].
  rewrite map_map.
  change (firstn 4 (l0 :: l1 :: l2 :: l3 :: rest)) with [l0; l1; l2; l3].
  rewrite (map_ext _ (fun d => [cell_of d l0; cell_of d l1; cell_of d l2; cell_of d l3]))
    by reflexivity.
  unfold set_columns; cbn [length columns rows Nat.eqb bind].
  unfold get_column at 1; cbn [columns rows].
  change (index_of "Amount" ["DateTime"; "Product"; "Quantity"; "Amount"]) with (Some 3).
  cbn [bind]. unfold fillna, to_numeric. rewrite (map_map (to_numeric_cell parse_number)).
  rewrite set_column_existing by reflexivity.
  rewrite map_map. cbn [nth replace_nth].
  rewrite (map_ext _ (fun d => [ cell_of d l0; cell_of d l1; cell_of d l2;
                                 VFloat (coerced_amount parse_number (cell_of d l3)) ]))
    by (intros d; now rewrite to_numeric_fillna).
  unfold get_column; cbn [columns rows].
  change (index_of "DateTime" ["DateTime"; "Product"; "Quantity"; "Amount"]) with (Some 0).
  cbn [bind]. unfold to_datetime.
  rewrite set_column_existing by reflexivity.
  rewrite !map_map. cbn [nth replace_nth].
  unfold dropna; cbn [columns rows].
  change (index_of "DateTime" ["DateTime"; "Product"; "Quantity"; "Amount"]) with (Some 0).
  cbn [bind].
  rewrite !set_scalar_new by reflexivity.
  rewrite !map_map. unfold canonical_columns. cbn [app nth].
  f_equal. f_equal.
  rewrite <- (stamp_surviving _ location year month
                (fun d => cell_of d l0) (fun d => cell_of d l1)
                (fun d => cell_of d l2) (fun d => cell_of d l3)).
  reflexivity.
Qed.


Lemma normalize_narrow (data : list Dict.t) (location : string) (year : Z) (month : string) :
  length (column_labels data) < 4 ->
  normalize parse_number parse_datetime data location year month = Ok empty_frame.
Proof.
  intros Hnarrow. unfold normalize, frame_of_records; cbn [columns].
  apply Nat.leb_gt in Hnarrow. now rewrite Hnarrow.
Qed.

(** The pandas part of the function never raises. *)
Lemma normalize_total (data : list Dict.t) (location : string) (year : Z) (month : string) :
  exists df, normalize parse_number parse_datetime data location year month = Ok df.
Proof.
  destruct (Nat.le_gt_cases 4 (length (column_labels data))) as [Hwide | Hnarrow].
  - eexists. now apply normalize_wide.
  - eexists. now apply normalize_narrow.
Qed.

Lemma load_sheet_data_wide (gc : Client) (location : string) (year : Z) (month : string)
  (data : list Dict.t) :
  fetch gc location month = Ok data ->
  4 <= length (column_labels data) ->
  load_sheet_data parse_number parse_datetime gc location year month
  = ({| columns := canonical_columns;
        rows := normalized_rows parse_number parse_datetime data location year month |}, []).
Proof.
  intros Hfetch Hwide. unfold load_sheet_data, load_sheet_body.
  rewrite Hfetch; cbn [bind].
  destruct data as [|d data]; [simpl in Hwide; lia|].
  now rewrite normalize_wide.
Qed.

Lemma load_sheet_data_narrow (gc : Client) (location : string) (year : Z) (month : string)
  (data : list Dict.t) :
  fetch gc location month = Ok data ->
  length (column_labels data) < 4 ->
  load_sheet_data parse_number parse_datetime gc location year month = (empty_frame, []).
Proof.
  intros Hfetch Hnarrow. unfold load_sheet_data, load_sheet_body.
  rewrite Hfetch; cbn [bind].
  destruct data as [|d data]; [reflexivity|].
  now rewrite normalize_narrow.
Qed.

Lemma load_sheet_data_raised (gc : Client) (location : string) (year : Z) (month e : string) :
  fetch gc location month = Raise e ->
  load_sheet_data parse_number parse_datetime gc location year month
  = (empty_frame, [error_message location month e]).
Proof.
  intros Hfetch. unfold load_sheet_data, load_sheet_body. now rewrite Hfetch.
Qed.

End NormalizerFacts.

(** ** Failures of the retrieval *)

Lemma fetch_failure_raises (gc : Client) (location month e : string) :
  fetch_failure gc location month e -> fetch gc location month = Raise e.
Proof.
  intros Hfail. unfold fetch.
  destruct Hfail as [e Hloc | cfg e Hloc Hopen | cfg sheet e Hloc Hopen Htab
                    | cfg sheet ws e Hloc Hopen Htab Hrec Hdup
                    | cfg sheet ws e0 e Hloc Hopen Htab Hrec Hdup Hgrid];
    rewrite Hloc; cbn [bind]; try reflexivity;
    rewrite Hopen; cbn [bind]; try reflexivity;
    rewrite Htab; cbn [bind]; try reflexivity;
    rewrite Hrec, Hdup; try reflexivity.
  now rewrite Hgrid.
Qed.

Lemma fetch_raises_failure (gc : Client) (location month e : string) :
  fetch gc location month = Raise e -> fetch_failure gc location month e.
Proof.
  unfold fetch.
  destruct (lookup_location location LOCATIONS) as [cfg | e1] eqn:Hloc; cbn [bind].
  2: { intros [= <-]. now apply unknown_location. }
  destruct (open gc (sheet_name cfg)) as [sheet | e2] eqn:Hopen; cbn [bind].
  2: { intros [= <-]. now apply (document_not_found _ _ _ cfg). }
  destruct (worksheet sheet month) as [ws | e3] eqn:Htab; cbn [bind].
  2: { intros [= <-]. now apply (tab_not_found _ _ _ cfg sheet). }
  destruct (get_all_records ws) as [data | e4] eqn:Hrec; [discriminate|].
  destruct (contains "duplicates" e4) eqn:Hdup.
  - destruct (get_all_values ws) as [grid | e5] eqn:Hgrid; cbn [bind]; [discriminate|].
    intros [= <-]. now apply (grid_failed _ _ _ cfg sheet ws e4).
  - intros [= <-]. now apply (records_failed _ _ _ cfg sheet ws).
Qed.

(** ** The raw-grid fallback *)

Lemma clean_headers_firstn (headers : list string) :
  clean_headers_of headers = firstn 4 headers.
Proof.
  unfold clean_headers_of.
  destruct (4 <=? length headers) eqn:Hlen; [reflexivity|].
  apply Nat.leb_gt in Hlen. symmetry. apply firstn_all2. lia.
Qed.

Lemma collect_rows_filter (clean_headers : list string) (rows : list (list string))
  (data : list Dict.t) :
  collect_rows clean_headers rows data
  = data ++ map (row_dict_of clean_headers)
              (filter (fun row => length clean_headers <=? length row) rows).
Proof.
  revert data. induction rows as [|row rows IH]; intros data; simpl.
  - now rewrite app_nil_r.
  - destruct (length clean_headers <=? length row); rewrite IH; [|reflexivity].
    now rewrite <- app_assoc.
Qed.

Lemma skipn_nth_cons {A : Type} (d : A) (l : list A) (i : nat) :
  i < length l -> skipn i l = nth i l d :: skipn (S i) l.
Proof.
  revert l. induction i as [|i IH]; intros [|x l] Hlt; simpl in *; try lia.
  - reflexivity.
  - apply IH. lia.
Qed.

(** On a row that has a cell for every header the inner loop is a plain zip:
    its padding branch is never taken. *)
Lemma fill_row_dict_zip (clean_headers row : list string) (i : nat) (row_dict : Dict.t) :
  i + length clean_headers <= length row ->
  fill_row_dict i clean_headers row row_dict
  = fold_left (fun d hc => Dict.set (fst hc) (VStr (snd hc)) d)
      (combine clean_headers (skipn i row)) row_dict.
Proof.
  revert i row_dict.
  induction clean_headers as [|header rest IH]; intros i row_dict Hlen; simpl in *.
  - reflexivity.
  - assert (Hi : i < length row) by lia.
    rewrite (skipn_nth_cons "" row i Hi).
    apply Nat.ltb_lt in Hi. rewrite Hi. simpl.
    apply IH. lia.
Qed.

Lemma row_dict_zip (clean_headers row : list string) :
  length clean_headers <= length row ->
  row_dict_of clean_headers row = zip_record clean_headers row.
Proof.
  intros Hlen. unfold row_dict_of, zip_record.
  now rewrite fill_row_dict_zip by (simpl; lia).
Qed.

Lemma filter_all {A : Type} (p : A -> bool) (l : list A) :
  Forall (fun x => p x = true) l -> filter p l = l.
Proof.
  induction 1 as [|x l Hx _ IH]; simpl; [reflexivity|].
  now rewrite Hx, IH.
Qed.

(** C5, as amended: in the raw-grid fallback, for every grid with at least
    one data row, each data row that has at least as many cells as the header
    row truncated to its first 4 columns yields one record, the zip of the
    truncated headers with the cells of the row; a data row with fewer cells
    is skipped.  When no data row is shorter than the header row, every data
    row yields one record. *)
Theorem raw_grid_fallback_keeps_full_rows (all_values : list (list string)) :
  1 < length all_values ->
  raw_grid_fallback all_values
  = map (zip_record (firstn 4 (hd [] all_values)))
      (filter (row_is_kept (hd [] all_values)) (tl all_values))
  /\ (Forall (fun row => length (hd [] all_values) <= length row) (tl all_values) ->
      length (raw_grid_fallback all_values) = length (tl all_values)).
Proof.
  intros Hrows.
  assert (Heq : raw_grid_fallback all_values
                = map (zip_record (firstn 4 (hd [] all_values)))
                    (filter (row_is_kept (hd [] all_values)) (tl all_values))).
  { unfold raw_grid_fallback.
    apply Nat.ltb_lt in Hrows. rewrite Hrows.
    cbv zeta. rewrite collect_rows_filter, clean_headers_firstn. simpl app.
    unfold row_is_kept.
    apply map_ext_in. intros row Hin.
    apply filter_In in Hin. destruct Hin as [_ Hkept].
    apply row_dict_zip. now apply Nat.leb_le. }
  split; [exact Heq|].
  intros Hrect. rewrite Heq, length_map, filter_all; [reflexivity|].
  eapply Forall_impl; [|exact Hrect].
  intros row Hlen. cbv beta in Hlen. unfold row_is_kept. apply Nat.leb_le.
  rewrite length_firstn. lia.
Qed.

Lemma raw_grid_fallback_keeps_full_rows_witness :
  raw_grid_fallback Examples.ragged_grid
  = map (zip_record (firstn 4 (hd [] Examples.ragged_grid)))
      (filter (row_is_kept (hd [] Examples.ragged_grid)) (tl Examples.ragged_grid))
  /\ (Forall (fun row => length (hd [] Examples.ragged_grid) <= length row)
        (tl Examples.ragged_grid) ->
      length (raw_grid_fallback Examples.ragged_grid) = length (tl Examples.ragged_grid)).
Proof.
  apply (raw_grid_fallback_keeps_full_rows Examples.ragged_grid).
  vm_compute. lia.
Defined.

(** The data row with two cells gives no record: the fallback returns one
    record for two data rows, so it is not the padded zip of every row. *)
Lemma raw_grid_fallback_skips_short_row :
  1 < length Examples.ragged_grid
  /\ length (tl Examples.ragged_grid) = 2
  /\ length (raw_grid_fallback Examples.ragged_grid) = 1
  /\ ~ fallback_pads_every_row Examples.ragged_grid.
Proof.
  split; [vm_compute; lia|].
  split; [reflexivity|].
  split; [reflexivity|].
  intros Hpad. unfold fallback_pads_every_row in Hpad.
  apply (f_equal (@length Dict.t)) in Hpad.
  vm_compute in Hpad. discriminate Hpad.
Qed.

(** The example of the specification: a header row of 6 columns whose last
    two are empty duplicates.  The first 4 columns are used, and the frame has
    the canonical columns. *)
Example fallback_uses_first_four_columns :
  load_sheet_data Sample.parse_number Sample.parse_datetime
    (Examples.client_of Examples.ragged_sheet) "Aylesbury" 2025 "May 25"
  = ({| columns := canonical_columns;
        rows := [ [ VTime 1746057600000000000; VStr "Day Pass"; VStr "1"; VFloat 12;
                    VStr "Aylesbury"; VInt 2025; VStr "May 25" ] ] |}, []).
Proof. reflexivity. Qed.

(** ** The row normalizer *)

Lemma length_flat_map_some {A B C : Type} (f : A -> option B) (g : A -> B -> C)
  (l : list A) :
  length (flat_map (fun x => match f x with Some y => [g x y] | None => [] end) l)
  + length (filter (fun x => match f x with Some _ => false | None => true end) l)
  = length l.
Proof.
  induction l as [|x l IH]; simpl; [reflexivity|].
  destruct (f x); simpl; lia.
Qed.

(** C1, as amended: when the retrieved table has the four positional columns, the
    returned rows are the records whose timestamp parses, in order, each with
    its amount coerced (0 when the coercion fails); so a record with an
    unparsable amount and a parsable timestamp is kept with amount 0, and the
    number of rows falls short of the number of records by exactly the number
    of records with an unparsable timestamp. *)
Theorem load_sheet_data_coercion_policy
  (parse_number : string -> option Q) (parse_datetime : list value -> value -> option Z)
  (gc : Client) (location : string) (year : Z) (month : string) (data : list Dict.t) :
  fetch gc location month = Ok data ->
  4 <= length (columns (frame_of_records data)) ->
  exists df,
    load_sheet_data parse_number parse_datetime gc location year month = (df, [])
    /\ rows df = normalized_rows parse_number parse_datetime data location year month
    /\ length (rows df) + length (filter (timestamp_fails parse_datetime data) data)
       = length data
    /\ (forall d t,
          In d data ->
          parsed_timestamp parse_datetime data d = Some t ->
          numeric_of parse_number (raw_cell data 3 d) = None ->
          In [ VTime t; raw_cell data 1 d; raw_cell data 2 d; VFloat 0;
               VStr location; VInt year; VStr month ] (rows df))
    /\ (forall r, In r (rows df) -> exists t, nth 0 r VNaT = VTime t).
Proof.
  intros Hfetch Hwide.
  eexists. split; [exact (load_sheet_data_wide _ _ _ _ _ _ _ Hfetch Hwide)|]. cbn [rows].
  split; [reflexivity|].
  split.
  { unfold normalized_rows, timestamp_fails.
    apply (length_flat_map_some (parsed_timestamp parse_datetime data)
             (stamped_row parse_number data location year month)). }
  split.
  - intros d t Hin Htime Hamount.
    unfold normalized_rows. apply in_flat_map. exists d. split; [exact Hin|].
    rewrite Htime. left. unfold stamped_row, coerced_amount. now rewrite Hamount.
  - intros r Hin. unfold normalized_rows in Hin.
    apply in_flat_map in Hin. destruct Hin as [d [_ Hin]].
    destruct (parsed_timestamp parse_datetime data d) as [t|]; [|contradiction].
    destruct Hin as [<- | []]. now exists t.
Qed.

Lemma load_sheet_data_coercion_policy_witness :
  exists df,
    load_sheet_data Sample.parse_number Sample.parse_datetime
      (Examples.client_of Examples.may_sheet) "Aylesbury" 2025 "May 25" = (df, [])
    /\ rows df = normalized_rows Sample.parse_number Sample.parse_datetime
                   Examples.may_records "Aylesbury" 2025 "May 25"
    /\ length (rows df)
       + length (filter (timestamp_fails Sample.parse_datetime Examples.may_records)
                   Examples.may_records)
       = length Examples.may_records
    /\ (forall d t,
          In d Examples.may_records ->
          parsed_timestamp Sample.parse_datetime Examples.may_records d = Some t ->
          numeric_of Sample.parse_number (raw_cell Examples.may_records 3 d) = None ->
          In [ VTime t; raw_cell Examples.may_records 1 d; raw_cell Examples.may_records 2 d;
               VFloat 0; VStr "Aylesbury"; VInt 2025; VStr "May 25" ] (rows df))
    /\ (forall r, In r (rows df) -> exists t, nth 0 r VNaT = VTime t).
Proof.
  apply (load_sheet_data_coercion_policy Sample.parse_number Sample.parse_datetime
           (Examples.client_of Examples.may_sheet) "Aylesbury" 2025 "May 25"
           Examples.may_records).
  - reflexivity.
  - vm_compute. lia.
Defined.

(** A tab with three columns: its one record has a timestamp that parses and
    none that fails, and no row is returned. *)
Lemma narrow_table_loses_parsable_row :
  fetch (Examples.client_of Examples.narrow_sheet) "Aylesbury" "May 25"
  = Ok Examples.narrow_records
  /\ length Examples.narrow_records = 1
  /\ parsed_timestamp Sample.parse_datetime Examples.narrow_records
       [("Date", VStr "2025-05-01"); ("Item", VStr "Day Pass"); ("Price", VInt 12)]
     = Some 1746057600000000000%Z
  /\ filter (timestamp_fails Sample.parse_datetime Examples.narrow_records)
       Examples.narrow_records = []
  /\ rows (fst (load_sheet_data Sample.parse_number Sample.parse_datetime
                  (Examples.client_of Examples.narrow_sheet) "Aylesbury" 2025 "May 25"))
     = []
  /\ length (rows (fst (load_sheet_data Sample.parse_number Sample.parse_datetime
                          (Examples.client_of Examples.narrow_sheet)
                          "Aylesbury" 2025 "May 25")))
     + length (filter (timestamp_fails Sample.parse_datetime Examples.narrow_records)
                 Examples.narrow_records)
     <> length Examples.narrow_records.
Proof.
  repeat split; try reflexivity. vm_compute. discriminate.
Qed.

(** The example of the specification: of the three May records, the one with
    amount [abc] is kept with amount 0 and the one dated [not-a-date] is gone. *)
Example may_records_normalized :
  load_sheet_data Sample.parse_number Sample.parse_datetime
    (Examples.client_of Examples.may_sheet) "Aylesbury" 2025 "May 25"
  = ({| columns := canonical_columns;
        rows := [ [ VTime 1746057600000000000; VStr "Day Pass"; VInt 1; VFloat 0;
                    VStr "Aylesbury"; VInt 2025; VStr "May 25" ];
                  [ VTime 1746144000000000000; VStr "Protein Bar"; VInt 2; VFloat 5;
                    VStr "Aylesbury"; VInt 2025; VStr "May 25" ] ] |}, []).
Proof. reflexivity. Qed.

(** C2: the function returns in every case.  Whatever way the retrieval
    fails (unknown location, document or tab not found, a retrieval error
    other than duplicated headers, a failure of the raw-grid read), the
    result is the empty frame together with one reported error carrying the
    message; and when nothing is reported a frame is returned. *)
Theorem load_sheet_data_never_raises
  (parse_number : string -> option Q) (parse_datetime : list value -> value -> option Z)
  (gc : Client) (location : string) (year : Z) (month : string) :
  (forall e,
      fetch_failure gc location month e ->
      load_sheet_data parse_number parse_datetime gc location year month
      = (empty_frame, [error_message location month e]))
  /\ ((exists df,
         load_sheet_data parse_number parse_datetime gc location year month = (df, []))
      \/ (exists e,
            fetch_failure gc location month e
            /\ load_sheet_data parse_number parse_datetime gc location year month
               = (empty_frame, [error_message location month e]))).
Proof.
  split.
  - intros e Hfail. apply load_sheet_data_raised. now apply fetch_failure_raises.
  - destruct (fetch gc location month) as [data | e] eqn:Hfetch.
    + left. unfold load_sheet_data, load_sheet_body. rewrite Hfetch; cbn [bind].
      destruct data as [|d data]; [now exists empty_frame|].
      destruct (normalize_total parse_number parse_datetime (d :: data) location year month)
        as [df Hdf].
      rewrite Hdf. now exists df.
    + right. exists e. split; [now apply fetch_raises_failure|].
      now apply load_sheet_data_raised.
Qed.

(** A connection error and an unknown location, evaluated. *)
Example offline_reports_error :
  load_sheet_data Sample.parse_number Sample.parse_datetime
    Examples.offline_client "Aylesbury" 2025 "May 25"
  = (empty_frame, ["Error loading data for Aylesbury May 25: connection reset"]).
Proof. reflexivity. Qed.

Example unknown_location_reports_error :
  load_sheet_data Sample.parse_number Sample.parse_datetime
    (Examples.client_of Examples.may_sheet) "Luton" 2025 "May 25"
  = (empty_frame, ["Error loading data for Luton May 25: 'Luton'"]).
Proof. reflexivity. Qed.

(** C6: a retrieved table with fewer than 4 columns gives the empty frame,
    and no error is reported. *)
Theorem load_sheet_data_rejects_narrow
  (parse_number : string -> option Q) (parse_datetime : list value -> value -> option Z)
  (gc : Client) (location : string) (year : Z) (month : string) (data : list Dict.t) :
  fetch gc location month = Ok data ->
  length (columns (iloc_first4 (frame_of_records data))) < 4 ->
  load_sheet_data parse_number parse_datetime gc location year month = (empty_frame, []).
Proof.
  intros Hfetch Hnarrow. apply (load_sheet_data_narrow _ _ _ _ _ _ data Hfetch).
  cbn [iloc_first4 frame_of_records columns] in Hnarrow.
  rewrite length_firstn in Hnarrow. lia.
Qed.

Lemma load_sheet_data_rejects_narrow_witness :
  load_sheet_data Sample.parse_number Sample.parse_datetime
    (Examples.client_of Examples.narrow_sheet) "Aylesbury" 2025 "May 25"
  = (empty_frame, []).
Proof.
  apply (load_sheet_data_rejects_narrow Sample.parse_number Sample.parse_datetime
           (Examples.client_of Examples.narrow_sheet) "Aylesbury" 2025 "May 25"
           Examples.narrow_records).
  - reflexivity.
  - vm_compute. lia.
Defined.

(** C10: a non-empty frame returned by the normalizer has exactly the seven
    canonical columns in order, and every row holds a timestamp, the product
    and quantity cells, a numeric amount, and the requested location, year
    and month. *)
Theorem load_sheet_data_invariant
  (parse_number : string -> option Q) (parse_datetime : list value -> value -> option Z)
  (gc : Client) (location : string) (year : Z) (month : string) :
  let df := fst (load_sheet_data parse_number parse_datetime gc location year month) in
  empty df = false ->
  columns df = ["DateTime"; "Product"; "Quantity"; "Amount"; "Location"; "Year"; "Month"]
  /\ Forall (fun r => exists t p q a,
                 r = [VTime t; p; q; VFloat a; VStr location; VInt year; VStr month])
       (rows df).
Proof.
  cbv zeta.
  destruct (fetch gc location month) as [data | e] eqn:Hfetch.
  2: { rewrite (load_sheet_data_raised _ _ _ _ _ _ _ Hfetch). discriminate. }
  destruct (Nat.le_gt_cases 4 (length (column_labels data))) as [Hwide | Hnarrow].
  2: { rewrite (load_sheet_data_narrow _ _ _ _ _ _ _ Hfetch Hnarrow). discriminate. }
  rewrite (load_sheet_data_wide _ _ _ _ _ _ _ Hfetch Hwide). cbn [fst columns rows].
  intros _. split; [reflexivity|].
  apply Forall_forall. intros r Hin.
  unfold normalized_rows in Hin. apply in_flat_map in Hin. destruct Hin as [d [_ Hin]].
  destruct (parsed_timestamp parse_datetime data d) as [t|]; [|contradiction].
  destruct Hin as [<- | []]. unfold stamped_row. eauto.
Qed.

Lemma load_sheet_data_invariant_witness :
  columns (fst (load_sheet_data Sample.parse_number Sample.parse_datetime
                  (Examples.client_of Examples.may_sheet) "Aylesbury" 2025 "May 25"))
  = ["DateTime"; "Product"; "Quantity"; "Amount"; "Location"; "Year"; "Month"]
  /\ Forall (fun r => exists t p q a,
                 r = [VTime t; p; q; VFloat a; VStr "Aylesbury"; VInt 2025; VStr "May 25"])
       (rows (fst (load_sheet_data Sample.parse_number Sample.parse_datetime
                     (Examples.client_of Examples.may_sheet) "Aylesbury" 2025 "May 25"))).
Proof.
  apply (load_sheet_data_invariant Sample.parse_number Sample.parse_datetime
           (Examples.client_of Examples.may_sheet) "Aylesbury" 2025 "May 25").
  reflexivity.
Defined.

(** ** Group keys *)

Lemma compare_Lt_lts (a b : string) : String.compare a b = Lt <-> String_as_OT.lt a b.
Proof. apply String_as_OT.cmp_lt. Qed.

Lemma compare_Gt_lts (a b : string) : String.compare a b = Gt -> String_as_OT.lt b a.
Proof.
  intros Hgt. apply compare_Lt_lts.
  rewrite String.compare_antisym, Hgt. reflexivity.
Qed.

Lemma insert_key_In (k x : string) (keys : list string) :
  In x (insert_key k keys) <-> x = k \/ In x keys.
Proof.
  induction keys as [|k' rest IH]; simpl.
  - intuition.
  - destruct (String.compare k k') eqn:Hcmp; simpl.
    + apply String.compare_eq_iff in Hcmp. subst k'. intuition.
    + intuition.
    + rewrite IH. intuition.
Qed.

Lemma insert_key_sorted (k : string) (keys : list string) :
  StronglySorted String_as_OT.lt keys ->
  StronglySorted String_as_OT.lt (insert_key k keys).
Proof.
  induction 1 as [|k' rest Hsorted IH Hall]; simpl.
  - constructor; constructor.
  - destruct (String.compare k k') eqn:Hcmp.
    + now constructor.
    + apply compare_Lt_lts in Hcmp.
      constructor; [now constructor|].
      constructor; [exact Hcmp|].
      eapply Forall_impl; [|exact Hall].
      intros x Hx. eapply String_as_OT.lt_trans; eassumption.
    + apply compare_Gt_lts in Hcmp.
      constructor; [exact IH|].
      apply Forall_forall. intros x Hx.
      apply insert_key_In in Hx. destruct Hx as [-> | Hx]; [exact Hcmp|].
      rewrite Forall_forall in Hall. now apply Hall.
Qed.

Lemma group_keys_sorted (df : TransactionTable) :
  StronglySorted String_as_OT.lt (group_keys df).
Proof.
  unfold group_keys. induction (map Product df) as [|k ks IH]; simpl.
  - constructor.
  - now apply insert_key_sorted.
Qed.

Lemma group_keys_In (df : TransactionTable) (k : string) :
  In k (group_keys df) <-> In k (map Product df).
Proof.
  unfold group_keys. induction (map Product df) as [|k' ks IH]; simpl.
  - reflexivity.
  - rewrite insert_key_In, IH. intuition.
Qed.

Lemma lts_irrefl (a : string) : ~ String_as_OT.lt a a.
Proof. intros Hlt. apply String_as_OT.lt_not_eq in Hlt. apply Hlt. reflexivity. Qed.

Lemma sorted_keys_NoDup (keys : list string) :
  StronglySorted String_as_OT.lt keys -> NoDup keys.
Proof.
  induction 1 as [|k rest Hsorted IH Hall]; constructor; [|exact IH].
  intros Hin. rewrite Forall_forall in Hall. exact (lts_irrefl k (Hall k Hin)).
Qed.

Lemma lts_leb (a b : string) : a = b \/ String_as_OT.lt a b -> String.leb a b = true.
Proof.
  unfold String.leb. intros [-> | Hlt].
  - destruct (String.compare b b) eqn:Hcmp; try reflexivity.
    apply compare_Gt_lts in Hcmp. now apply lts_irrefl in Hcmp.
  - apply compare_Lt_lts in Hlt. now rewrite Hlt.
Qed.

(** ** The first maximum *)

Lemma Qlt_bool_iff (a b : Q) : Qlt_bool a b = true <-> (a < b)%Q.
Proof.
  unfold Qlt_bool. rewrite negb_true_iff. split.
  - intros Hle. apply Qnot_le_lt. intros Hba.
    apply Qle_bool_iff in Hba. congruence.
  - intros Hlt. destruct (Qle_bool b a) eqn:Hle; [|reflexivity].
    apply Qle_bool_iff in Hle. exfalso. exact (Qlt_not_le _ _ Hlt Hle).
Qed.

Lemma Qlt_bool_false (a b : Q) : Qlt_bool a b = false -> (b <= a)%Q.
Proof.
  unfold Qlt_bool. rewrite negb_false_iff. apply Qle_bool_iff.
Qed.

(** The scan returns an entry of the series that no entry exceeds; it is the
    starting entry unless a later one is strictly larger; and on a series
    with increasing labels every entry that equals it has a label at or after
    its own. *)
Lemma idxmax_from_first_max (rest : list (string * Q)) (best : string * Q) :
  StronglySorted String_as_OT.lt (map fst (best :: rest)) ->
  let r := idxmax_from best rest in
  (r = best \/ (In r rest /\ (snd best < snd r)%Q))
  /\ (forall x, In x (best :: rest) ->
        (snd x <= snd r)%Q
        /\ ((snd x == snd r)%Q -> fst r = fst x \/ String_as_OT.lt (fst r) (fst x))).
Proof.
  revert best. induction rest as [|kv rest IH]; intros best Hsorted; cbn [idxmax_from].
  - split; [now left|].
    intros x [<- | []]. split; [apply Qle_refl | now left].
  - inversion Hsorted as [|? ? Htail Hbest]; subst.
    cbn [map] in Htail, Hbest.
    destruct (Qlt_bool (snd best) (snd kv)) eqn:Hlt.
    + apply Qlt_bool_iff in Hlt.
      destruct (IH kv Htail) as [Hwhere Hmax]. cbv zeta in Hwhere, Hmax.
      assert (Hkv : (snd kv <= snd (idxmax_from kv rest))%Q)
        by (apply Hmax; now left).
      assert (Hstrict : (snd best < snd (idxmax_from kv rest))%Q)
        by (eapply Qlt_le_trans; eassumption).
      split.
      * right. split; [|exact Hstrict].
        destruct Hwhere as [-> | [Hin _]]; [now left | now right].
      * intros x [<- | Hx]; [|now apply Hmax].
        split; [now apply Qlt_le_weak|].
        intros Heq. rewrite Heq in Hstrict. now apply Qlt_irrefl in Hstrict.
    + apply Qlt_bool_false in Hlt.
      assert (Hsorted' : StronglySorted String_as_OT.lt (map fst (best :: rest))).
      { cbn [map]. inversion Htail; subst. inversion Hbest; subst. now constructor. }
      destruct (IH best Hsorted') as [Hwhere Hmax]. cbv zeta in Hwhere, Hmax.
      assert (Hbest_le : (snd best <= snd (idxmax_from best rest))%Q)
        by (apply Hmax; now left).
      split.
      * destruct Hwhere as [-> | [Hin Hstrict]]; [now left|].
        right. split; [now right | exact Hstrict].
      * intros x [<- | [<- | Hx]].
        -- apply Hmax. now left.
        -- split; [eapply Qle_trans; eassumption|].
           intros Heq.
           destruct Hwhere as [Hr | [_ Hstrict]].
           ++ rewrite Hr. right. now inversion Hbest.
           ++ exfalso. rewrite <- Heq in Hstrict.
              exact (Qlt_not_le _ _ Hstrict Hlt).
        -- apply Hmax. now right.
Qed.

(** ** The metrics aggregator *)

Lemma product_revenue_labels (A : Arithmetic) (df : TransactionTable) :
  map fst (Float64.product_revenue A df) = group_keys df.
Proof.
  unfold Float64.product_revenue. rewrite map_map. simpl. apply map_id.
Qed.

Lemma product_revenue_In (A : Arithmetic) (df : TransactionTable) (x : string * Q) :
  In x (Float64.product_revenue A df) <->
  In (fst x) (map Product df) /\ snd x = group_sum A (group_amounts (fst x) df).
Proof.
  unfold Float64.product_revenue. rewrite in_map_iff. split.
  - intros [k [<- Hk]]. simpl. split; [now apply group_keys_In | reflexivity].
  - intros [Hk Hsum]. exists (fst x). split; [|now apply group_keys_In].
    destruct x as [k v]; simpl in *. now rewrite Hsum.
Qed.

Lemma top_product_nonempty (A : Arithmetic) (df : TransactionTable) :
  df <> [] ->
  exists kv rest,
    Float64.product_revenue A df = kv :: rest
    /\ top_product (Float64.calculate_revenue_metrics A df) = fst (idxmax_from kv rest).
Proof.
  intros Hne. destruct df as [|r df']; [congruence|].
  destruct (Float64.product_revenue A (r :: df')) as [|kv rest] eqn:Hrev.
  - exfalso.
    assert (Hin : In (Product r, group_sum A (group_amounts (Product r) (r :: df')))
                    (Float64.product_revenue A (r :: df'))).
    { apply product_revenue_In. simpl. split; [now left | reflexivity]. }
    rewrite Hrev in Hin. exact Hin.
  - exists kv, rest. split; [reflexivity|].
    cbn [Float64.calculate_revenue_metrics top_product]. now rewrite Hrev.
Qed.

(** With the exact arithmetic the parametrised aggregator is the one defined
    first. *)
Lemma exact_metrics (df : TransactionTable) :
  Float64.calculate_revenue_metrics exact_arithmetic df = calculate_revenue_metrics df.
Proof. destruct df; reflexivity. Qed.

Lemma exact_grouped_stats (df : TransactionTable) :
  Float64.grouped_stats exact_arithmetic df = grouped_stats df.
Proof. reflexivity. Qed.

(** C3: the daily average is the total revenue divided by 30, whatever the
    timestamps of the rows; two tables with the same amounts have the same
    daily average. *)
Theorem daily_average_fixed_divisor (df : TransactionTable) :
  (daily_average (calculate_revenue_metrics df)
   == total_revenue (calculate_revenue_metrics df) / 30)%Q
  /\ (forall df' : TransactionTable,
        map Amount df' = map Amount df ->
        daily_average (calculate_revenue_metrics df')
        = daily_average (calculate_revenue_metrics df)).
Proof.
  split.
  - destruct df as [|r df']; reflexivity.
  - intros other Hsame.
    destruct df as [|r df'], other as [|r' other']; try discriminate; [reflexivity|].
    cbn [calculate_revenue_metrics daily_average]. now rewrite Hsame.
Qed.

(** The first example of the specification: one row of amount 100. *)
Example single_row_metrics :
  let m := calculate_revenue_metrics [Examples.sale "Day Pass" 100] in
  (total_revenue m == 100)%Q /\ (avg_transaction m == 100)%Q
  /\ (daily_average m == 100 / 30)%Q.
Proof. repeat split; reflexivity. Qed.

(** C4: on a non-empty table the top product is a product of the table whose
    summed amount no other product's exceeds, and it precedes or equals, in
    the lexicographic order, every product with the same summed amount; on
    the empty table it is [N/A].  The summed amount of a product is the sum
    the program computes over the amounts of the rows of that product, taken
    in the order of the table; the statement holds whatever the rounding of
    that sum. *)
Theorem top_product_first_maximum (A : Arithmetic) (df : TransactionTable) :
  (df = [] -> top_product (Float64.calculate_revenue_metrics A df) = "N/A")
  /\ (df <> [] ->
      let summed := fun p =>
        group_sum A (map Amount (filter (fun r => String.eqb (Product r) p) df)) in
      let top := top_product (Float64.calculate_revenue_metrics A df) in
      In top (map Product df)
      /\ (forall p, In p (map Product df) ->
            (summed p <= summed top)%Q
            /\ ((summed p == summed top)%Q -> String.leb top p = true))).
Proof.
  split; [now intros ->|].
  intros Hne. cbv zeta.
  change (fun p => group_sum A (map Amount (filter (fun r => String.eqb (Product r) p) df)))
    with (fun p => group_sum A (group_amounts p df)).
  destruct (top_product_nonempty A df Hne) as [kv [rest [Hrev ->]]].
  assert (Hsorted : StronglySorted String_as_OT.lt (map fst (kv :: rest))).
  { rewrite <- Hrev, product_revenue_labels. apply group_keys_sorted. }
  destruct (idxmax_from_first_max rest kv Hsorted) as [Hwhere Hmax].
  cbv zeta in Hwhere, Hmax.
  set (r := idxmax_from kv rest) in *.
  assert (Hr : In r (Float64.product_revenue A df)).
  { rewrite Hrev. destruct Hwhere as [-> | [Hin _]]; [now left | now right]. }
  apply product_revenue_In in Hr. destruct Hr as [Htop Hsum].
  split; [exact Htop|].
  intros p Hp.
  assert (Hin : In (p, group_sum A (group_amounts p df)) (kv :: rest)).
  { rewrite <- Hrev. apply product_revenue_In. now split. }
  destruct (Hmax _ Hin) as [Hle Htie]. cbn [fst snd] in Hle, Htie.
  rewrite Hsum in Hle, Htie.
  split; [exact Hle|].
  intros Heq. apply lts_leb. now apply Htie.
Qed.

Lemma top_product_first_maximum_witness :
  (FloatExamples.rounded_tie = [] ->
   top_product (Float64.calculate_revenue_metrics Binary64.arithmetic
                  FloatExamples.rounded_tie) = "N/A")
  /\ (FloatExamples.rounded_tie <> [] ->
      let summed := fun p =>
        group_sum Binary64.arithmetic
          (map Amount (filter (fun r => String.eqb (Product r) p)
                         FloatExamples.rounded_tie)) in
      let top := top_product (Float64.calculate_revenue_metrics Binary64.arithmetic
                                FloatExamples.rounded_tie) in
      In top (map Product FloatExamples.rounded_tie)
      /\ (forall p, In p (map Product FloatExamples.rounded_tie) ->
            (summed p <= summed top)%Q
            /\ ((summed p == summed top)%Q -> String.leb top p = true))).
Proof.
  exact (top_product_first_maximum Binary64.arithmetic FloatExamples.rounded_tie).
Defined.

(** Two products tied at 5: the one first in the lexicographic order wins,
    although it comes second in the table. *)
Example tied_top_product :
  top_product (calculate_revenue_metrics Examples.tied) = "Day Pass".
Proof. reflexivity. Qed.

(** The third example of the specification: amounts 100, 200, 0 over the
    products A, B, B. *)
Example spec_top_product :
  top_product (calculate_revenue_metrics
                 [Examples.sale "A" 100; Examples.sale "B" 200; Examples.sale "B" 0])
  = "B".
Proof. reflexivity. Qed.

(** The same examples in binary64. *)
Example binary64_top_products :
  top_product (Float64.calculate_revenue_metrics Binary64.arithmetic Examples.tied)
  = "Day Pass"
  /\ top_product (Float64.calculate_revenue_metrics Binary64.arithmetic
                    [Examples.sale "A" 100; Examples.sale "B" 200; Examples.sale "B" 0])
     = "B".
Proof. split; vm_compute; reflexivity. Qed.

(** It is the computed sums that are compared.  In binary64 the amounts 0.3
    and 0.4 of b add up to the 0.7 of a, so the two products tie and a, first
    by name, is the top product; the numbers themselves add up to more than
    the amount of a. *)
Example rounded_sums_tie :
  top_product (Float64.calculate_revenue_metrics Binary64.arithmetic
                 FloatExamples.rounded_tie) = "a"
  /\ group_sum Binary64.arithmetic (group_amounts "b" FloatExamples.rounded_tie)
     = group_sum Binary64.arithmetic (group_amounts "a" FloatExamples.rounded_tie)
  /\ top_product (calculate_revenue_metrics FloatExamples.rounded_tie) = "b".
Proof. repeat split; vm_compute; reflexivity. Qed.

(** Added from left to right, 0.3 + 0.2 + 0.1 gives 0.6 and 0.1 + 0.2 + 0.3
    gives the next float: b is the top product although both products were
    sold for the same three amounts. *)
Example order_of_addition_decides :
  top_product (Float64.calculate_revenue_metrics Binary64.arithmetic
                 FloatExamples.mirrored) = "b"
  /\ top_product (Float64.calculate_revenue_metrics Binary64.arithmetic
                    (rev FloatExamples.mirrored)) = "a"
  /\ top_product (calculate_revenue_metrics FloatExamples.mirrored) = "a".
Proof. repeat split; vm_compute; reflexivity. Qed.

Lemma load_sheet_data_no_rows
  (parse_number : string -> option Q) (parse_datetime : list value -> value -> option Z)
  (gc : Client) (location : string) (year : Z) (month : string)
  (cfg : LocationConfig) (sheet : Spreadsheet) (ws : Worksheet) :
  lookup_location location LOCATIONS = Ok cfg ->
  open gc (sheet_name cfg) = Ok sheet ->
  worksheet sheet month = Ok ws ->
  zero_data_rows ws ->
  load_sheet_data parse_number parse_datetime gc location year month = (empty_frame, []).
Proof.
  intros Hloc Hopen Htab Hzero.
  assert (Hfetch : fetch gc location month = Ok []).
  { unfold fetch. rewrite Hloc; cbn [bind]. rewrite Hopen; cbn [bind].
    rewrite Htab; cbn [bind].
    destruct Hzero as [-> | [e [grid [-> [-> [-> Hlen]]]]]]; [reflexivity|].
    cbn [bind]. unfold raw_grid_fallback.
    replace (1 <? length grid) with false; [reflexivity|].
    symmetry. apply Nat.ltb_ge. exact Hlen. }
  unfold load_sheet_data, load_sheet_body. now rewrite Hfetch.
Qed.

(** C7: the aggregator maps the empty table to all-zero metrics with top
    product [N/A]; and for a period whose tab exists and has no data row the
    normalizer returns the empty frame, which is the empty table, and reports
    no error. *)
Theorem empty_period_metrics
  (parse_number : string -> option Q) (parse_datetime : list value -> value -> option Z)
  (gc : Client) (location : string) (year : Z) (month : string) :
  calculate_revenue_metrics []
  = {| total_revenue := 0; transaction_count := 0; avg_transaction := 0;
       unique_products := 0; top_product := "N/A"; daily_average := 0 |}
  /\ (forall cfg sheet ws,
        lookup_location location LOCATIONS = Ok cfg ->
        open gc (sheet_name cfg) = Ok sheet ->
        worksheet sheet month = Ok ws ->
        zero_data_rows ws ->
        load_sheet_data parse_number parse_datetime gc location year month
        = (empty_frame, [])
        /\ option_map calculate_revenue_metrics (table_of_frame empty_frame)
           = Some no_data_metrics).
Proof.
  split; [reflexivity|].
  intros cfg sheet ws Hloc Hopen Htab Hzero.
  split; [|reflexivity].
  eapply load_sheet_data_no_rows; eassumption.
Qed.

(** Both kinds of tab without data rows, evaluated. *)
Example blank_tab_is_empty :
  load_sheet_data Sample.parse_number Sample.parse_datetime
    (Examples.client_of Examples.blank_sheet) "Oxford East" 2025 "Dec 25"
  = (empty_frame, [])
  /\ load_sheet_data Sample.parse_number Sample.parse_datetime
       (Examples.client_of Examples.header_only_sheet) "Oxford East" 2025 "Dec 25"
     = (empty_frame, []).
Proof. split; reflexivity. Qed.

(** ** Sorting the product statistics *)

Lemma insert_descending_perm (x : ProductStats) (l : list ProductStats) :
  Permutation (x :: l) (insert_descending x l).
Proof.
  induction l as [|y l IH]; simpl; [reflexivity|].
  destruct (Qle_bool (Total_Revenue y) (Total_Revenue x)); [reflexivity|].
  rewrite perm_swap. now apply perm_skip.
Qed.

Lemma insert_descending_sorted (x : ProductStats) (l : list ProductStats) :
  StronglySorted revenue_ge l -> StronglySorted revenue_ge (insert_descending x l).
Proof.
  induction 1 as [|y l Hsorted IH Hall]; simpl.
  - constructor; constructor.
  - destruct (Qle_bool (Total_Revenue y) (Total_Revenue x)) eqn:Hle.
    + apply Qle_bool_iff in Hle.
      constructor; [now constructor|].
      constructor; [exact Hle|].
      eapply Forall_impl; [|exact Hall].
      intros z Hz. unfold revenue_ge in *. eapply Qle_trans; eassumption.
    + constructor; [exact IH|].
      eapply Permutation_Forall; [apply insert_descending_perm|].
      constructor; [|exact Hall].
      unfold revenue_ge.
      destruct (Qlt_le_dec (Total_Revenue x) (Total_Revenue y)) as [Hlt | Hge].
      * now apply Qlt_le_weak.
      * apply Qle_bool_iff in Hge. congruence.
Qed.

Lemma stable_sort_perm (l : list ProductStats) :
  Permutation l (stable_sort_descending l).
Proof.
  induction l as [|x l IH]; simpl; [constructor|].
  rewrite <- insert_descending_perm. now apply perm_skip.
Qed.

Lemma stable_sort_sorted (l : list ProductStats) :
  StronglySorted revenue_ge (stable_sort_descending l).
Proof.
  induction l as [|x l IH]; simpl; [constructor|].
  now apply insert_descending_sorted.
Qed.

#[local] Instance stable_sort_values : SortValues :=
  {| sort_values := stable_sort_descending;
     sort_values_permutation := stable_sort_perm;
     sort_values_descending := stable_sort_sorted |}.

(** ** Product analysis *)

Lemma create_product_analysis_perm `{SortValues} (df : TransactionTable) :
  Permutation (grouped_stats df) (create_product_analysis df).
Proof.
  destruct df as [|r df']; [reflexivity|].
  apply sort_values_permutation.
Qed.

(** ** Ties in the sorted breakdown

    The groups enter the sort in ascending order of the product name.  A sort
    that keeps equal keys in their incoming order, as numpy's does on short
    arrays, therefore leaves lines with equal rounded sums in that order. *)





Lemma numpy_sort_perm `{SortValues} (l : list ProductStats) :
  Permutation l (numpy_sort l).
Proof.
  unfold numpy_sort. destruct (length l <=? 16).
  - apply stable_sort_perm.
  - apply sort_values_permutation.
Qed.



(** ** The breakdown on float64 columns *)



Lemma float_product_analysis_perm (A : Arithmetic) `{SortValues} (df : TransactionTable) :
  Permutation (Float64.grouped_stats A df) (Float64.create_product_analysis A df).
Proof.
  destruct df as [|r df']; [reflexivity|].
  apply numpy_sort_perm.
Qed.



(** The specification's example of a breakdown, with the exact arithmetic and
    in binary64. *)
Example spec_breakdown :
  map (fun s => (product s, Qred (Total_Revenue s), Transaction_Count s, Qred (Avg_Value s)))
    (create_product_analysis
       [Examples.sale "A" 100; Examples.sale "B" 200; Examples.sale "B" 0])
  = [("B", 200%Q, 2, 100%Q); ("A", 100%Q, 1, 100%Q)].
Proof. reflexivity. Qed.

Example binary64_spec_breakdown :
  map (fun s => (product s, Qred (Total_Revenue s), Transaction_Count s, Qred (Avg_Value s)))
    (Float64.create_product_analysis Binary64.arithmetic
       [Examples.sale "A" 100; Examples.sale "B" 200; Examples.sale "B" 0])
  = [("B", 200%Q, 2, 100%Q); ("A", 100%Q, 1, 100%Q)].
Proof. vm_compute. reflexivity. Qed.

(** Two products tied at 5 come out in the order of their names, and after
    the product with the larger revenue. *)
Example binary64_tied_breakdown :
  map product (Float64.create_product_analysis Binary64.arithmetic Examples.tied)
  = ["Day Pass"; "Protein Bar"]
  /\ map (fun s => (product s, Qred (Total_Revenue s)))
       (Float64.create_product_analysis Binary64.arithmetic FloatExamples.three_products)
     = [("Day Pass", 12%Q); ("Coffee", 5%Q); ("Protein Bar", 5%Q)].
Proof. split; vm_compute; reflexivity. Qed.

(** [round(2)] rounds the float [x * 100]: 0.575 * 100 is 57.49999999999999,
    so 0.575 shows as 0.57; 2.675 * 100 is 267.5, so 2.675 shows as 2.68,
    although the float 2.675 holds a number below 2.675. *)
Example binary64_round_2 :
  round_2dp Binary64.arithmetic (Binary64.nearest (575 # 1000))
  = Binary64.nearest (57 # 100)
  /\ round_2dp Binary64.arithmetic (Binary64.nearest (2675 # 1000))
     = Binary64.nearest (268 # 100)
  /\ (Binary64.nearest (2675 # 1000) < 2675 # 1000)%Q
  /\ (round_2 (575 # 1000) == 58 # 100)%Q
  /\ (round_2 (Binary64.nearest (2675 # 1000)) == 267 # 100)%Q.
Proof. repeat split; vm_compute; reflexivity. Qed.

(** * Further properties *)

(** ** Sums *)



(** ** Grouping partitions the table *)

Section Partition.

Context {A K : Type}.
Variable key : A -> K.
Variable eqb : K -> K -> bool.
Hypothesis eqb_spec : forall a b, reflect (a = b) (eqb a b).

Lemma groups_skip (r : A) (l : list A) (keys : list K) :
  ~ In (key r) keys ->
  flat_map (group_of key eqb (r :: l)) keys = flat_map (group_of key eqb l) keys.
Proof.
  induction keys as [|k keys IH]; intros Hout; simpl; [reflexivity|].
  destruct (eqb_spec (key r) k) as [Heq | Hne].
  - exfalso. apply Hout. now left.
  - rewrite IH; [reflexivity|]. intros Hin. apply Hout. now right.
Qed.

Lemma groups_cons (r : A) (l : list A) (keys : list K) :
  NoDup keys -> In (key r) keys ->
  Permutation (flat_map (group_of key eqb (r :: l)) keys) (r :: flat_map (group_of key eqb l) keys).
Proof.
  induction 1 as [|k keys Hfresh Hnodup IH]; intros Hin; [contradiction|].
  simpl. unfold group_of at 1; simpl. destruct (eqb_spec (key r) k) as [Heq | Hne].
  - subst k. now rewrite groups_skip.
  - destruct Hin as [Heq | Hin]; [congruence|].
    rewrite (IH Hin). symmetry. apply Permutation_middle.
Qed.

(** The groups of a list of distinct keys that covers every row, put end to
    end, are a rearrangement of the rows. *)
Lemma groups_partition (l : list A) (keys : list K) :
  NoDup keys -> (forall r, In r l -> In (key r) keys) ->
  Permutation (flat_map (group_of key eqb l) keys) l.
Proof.
  intros Hnodup. induction l as [|r l IH]; intros Hcover.
  - induction keys as [|k keys IHk]; simpl; [constructor|].
    inversion Hnodup; subst. now apply IHk.
  - rewrite groups_cons; [|exact Hnodup|apply Hcover; now left].
    apply perm_skip, IH. intros r' Hr'. apply Hcover. now right.
Qed.

Lemma group_lengths (l : list A) (keys : list K) :
  list_sum (map (fun k => length (group_of key eqb l k)) keys)
  = length (flat_map (group_of key eqb l) keys).
Proof.
  induction keys as [|k keys IH]; simpl; [reflexivity|].
  now rewrite length_app, IH.
Qed.

End Partition.

(** ** Consistency of the metrics *)

Lemma group_amounts_group_of (k : string) (df : TransactionTable) :
  group_amounts k df = map Amount (group_of Product String.eqb df k).
Proof. reflexivity. Qed.

Lemma product_groups_partition (df : TransactionTable) :
  Permutation (flat_map (group_of Product String.eqb df) (group_keys df)) df.
Proof.
  apply groups_partition.
  - apply String.eqb_spec.
  - apply sorted_keys_NoDup, group_keys_sorted.
  - intros r Hr. apply group_keys_In. now apply in_map.
Qed.

Lemma nunique_group_keys (df : TransactionTable) :
  nunique (map Product df) = length (group_keys df).
Proof.
  unfold nunique. apply Permutation_length, NoDup_Permutation.
  - apply NoDup_nodup.
  - apply sorted_keys_NoDup, group_keys_sorted.
  - intros p. rewrite nodup_In. symmetry. apply group_keys_In.
Qed.

(** X3: the metric [unique_products] is the number of lines of the product
    breakdown; it is at most the number of transactions, and at least 1 on a
    non-empty table. *)
Theorem unique_products_counts_breakdown `{SortValues} (df : TransactionTable) :
  unique_products (calculate_revenue_metrics df) = length (create_product_analysis df)
  /\ unique_products (calculate_revenue_metrics df)
     <= transaction_count (calculate_revenue_metrics df)
  /\ (df <> [] -> 1 <= unique_products (calculate_revenue_metrics df)).
Proof.
  destruct df as [|r df].
  - repeat split; simpl; [lia | congruence].
  - cbn [calculate_revenue_metrics unique_products transaction_count].
    rewrite nunique_group_keys. split; [|split].
    + rewrite <- (Permutation_length (create_product_analysis_perm (r :: df))).
      unfold grouped_stats. now rewrite length_map.
    + rewrite <- nunique_group_keys. unfold nunique.
      rewrite <- (length_map Product (r :: df)).
      apply NoDup_incl_length; [apply NoDup_nodup|].
      intros p Hp. now apply nodup_In in Hp.
    + intros _.
      assert (Hin : In (Product r) (group_keys (r :: df)))
        by (apply group_keys_In; now left).
      destruct (group_keys (r :: df)); [contradiction | simpl; lia].
Qed.

(** X4: the transaction counts of the breakdown add up to the number of
    transactions. *)
Theorem breakdown_counts_add_up `{SortValues} (df : TransactionTable) :
  list_sum (map Transaction_Count (create_product_analysis df))
  = transaction_count (calculate_revenue_metrics df).
Proof.
  rewrite <- (Permutation_list_sum
                (Permutation_map Transaction_Count (create_product_analysis_perm df))).
  unfold grouped_stats. rewrite map_map. cbn [aggregate_group Transaction_Count].
  erewrite map_ext;
    [|intros k; rewrite group_amounts_group_of, length_map; reflexivity].
  rewrite group_lengths, (Permutation_length (product_groups_partition df)).
  now destruct df.
Qed.



(** ** What the order of the rows does not change *)

Lemma filter_perm {A : Type} (p : A -> bool) (l l' : list A) :
  Permutation l l' -> Permutation (filter p l) (filter p l').
Proof.
  induction 1 as [|x l l' _ IH|x y l|l l' l'' _ IH1 _ IH2]; simpl.
  - constructor.
  - destruct (p x); [now apply perm_skip | exact IH].
  - destruct (p x), (p y); try reflexivity. apply perm_swap.
  - now rewrite IH1.
Qed.

(** Two ascending lists of names with the same members are the same list. *)
Lemma sorted_keys_unique (l l' : list string) :
  StronglySorted String_as_OT.lt l -> StronglySorted String_as_OT.lt l' ->
  (forall x, In x l <-> In x l') -> l = l'.
Proof.
  intros Hl. revert l'.
  induction Hl as [|a l Hsorted IH Hall]; intros l' Hl' Hsame.
  - destruct l' as [|b l']; [reflexivity|].
    exfalso. apply (proj2 (Hsame b)). now left.
  - destruct Hl' as [|b l' Hsorted' Hall'].
    + exfalso. apply (proj1 (Hsame a)). now left.
    + rewrite Forall_forall in Hall, Hall'.
      assert (Hab : a = b).
      { destruct (proj1 (Hsame a) (or_introl eq_refl)) as [Hba | Ha]; [now symmetry|].
        destruct (proj2 (Hsame b) (or_introl eq_refl)) as [Heq | Hb]; [exact Heq|].
        exfalso. apply (lts_irrefl a).
        eapply String_as_OT.lt_trans; [apply Hall, Hb | apply Hall', Ha]. }
      subst b. f_equal. apply IH; [exact Hsorted'|].
      intros x. split; intros Hx.
      * destruct (proj1 (Hsame x) (or_intror Hx)) as [Heq | Hx']; [|exact Hx'].
        subst x. exfalso. exact (lts_irrefl a (Hall a Hx)).
      * destruct (proj2 (Hsame x) (or_intror Hx)) as [Heq | Hx']; [|exact Hx'].
        subst x. exfalso. exact (lts_irrefl a (Hall' a Hx)).
Qed.

Lemma group_keys_perm (df other : TransactionTable) :
  Permutation df other -> group_keys df = group_keys other.
Proof.
  intros Hperm. apply sorted_keys_unique; try apply group_keys_sorted.
  intros p. rewrite !group_keys_In.
  split; apply Permutation_in; [|symmetry]; now apply Permutation_map.
Qed.

Lemma group_amounts_length_perm (k : string) (df other : TransactionTable) :
  Permutation df other ->
  length (group_amounts k df) = length (group_amounts k other).
Proof.
  intros Hperm. unfold group_amounts. rewrite !length_map.
  now apply Permutation_length, filter_perm.
Qed.

(** X6: reordering the rows of a table changes neither the number of
    transactions nor the number of unique products, and the breakdown lists
    the same products with the same transaction counts. *)
Theorem counts_ignore_row_order (A : Arithmetic) `{SortValues}
  (df other : TransactionTable) :
  Permutation df other ->
  let m := Float64.calculate_revenue_metrics A df in
  let m' := Float64.calculate_revenue_metrics A other in
  transaction_count m = transaction_count m'
  /\ unique_products m = unique_products m'
  /\ Permutation
       (map (fun s => (product s, Transaction_Count s))
          (Float64.create_product_analysis A df))
       (map (fun s => (product s, Transaction_Count s))
          (Float64.create_product_analysis A other)).
Proof.
  intros Hperm. cbv zeta.
  assert (Hlines : map (fun s => (product s, Transaction_Count s))
                     (Float64.grouped_stats A df)
                   = map (fun s => (product s, Transaction_Count s))
                       (Float64.grouped_stats A other)).
  { unfold Float64.grouped_stats. rewrite !map_map.
    rewrite (group_keys_perm _ _ Hperm). apply map_ext. intros k.
    cbn [Float64.aggregate_group product Transaction_Count].
    now rewrite (group_amounts_length_perm k _ _ Hperm). }
  split; [|split].
  - destruct df as [|r df].
    { apply Permutation_nil in Hperm. now subst other. }
    destruct other as [|r' other].
    { symmetry in Hperm. apply Permutation_nil in Hperm. discriminate. }
    exact (Permutation_length Hperm).
  - destruct df as [|r df].
    { apply Permutation_nil in Hperm. now subst other. }
    destruct other as [|r' other].
    { symmetry in Hperm. apply Permutation_nil in Hperm. discriminate. }
    cbn [Float64.calculate_revenue_metrics unique_products].
    now rewrite !nunique_group_keys, (group_keys_perm _ _ Hperm).
  - rewrite <- (Permutation_map _ (float_product_analysis_perm A df)).
    rewrite <- (Permutation_map _ (float_product_analysis_perm A other)).
    now rewrite Hlines.
Qed.

Lemma counts_ignore_row_order_witness :
  let m := Float64.calculate_revenue_metrics Binary64.arithmetic FloatExamples.mirrored in
  let m' := Float64.calculate_revenue_metrics Binary64.arithmetic
              (rev FloatExamples.mirrored) in
  transaction_count m = transaction_count m'
  /\ unique_products m = unique_products m'
  /\ Permutation
       (map (fun s => (product s, Transaction_Count s))
          (@Float64.create_product_analysis Binary64.arithmetic stable_sort_values
             FloatExamples.mirrored))
       (map (fun s => (product s, Transaction_Count s))
          (@Float64.create_product_analysis Binary64.arithmetic stable_sort_values
             (rev FloatExamples.mirrored))).
Proof.
  apply (counts_ignore_row_order Binary64.arithmetic
           FloatExamples.mirrored (rev FloatExamples.mirrored)).
  apply Permutation_rev.
Defined.

(** The total revenue and the top product do depend on the order of the rows:
    0.1 + 0.2 + 0.3 is one float above 0.3 + 0.2 + 0.1. *)
Example total_depends_on_row_order :
  column_sum Binary64.arithmetic
    [FloatExamples.tenths 1; FloatExamples.tenths 2; FloatExamples.tenths 3]
  <> column_sum Binary64.arithmetic
       [FloatExamples.tenths 3; FloatExamples.tenths 2; FloatExamples.tenths 1].
Proof. vm_compute. discriminate. Qed.

(** ** The daily revenue chart *)

Lemma insert_date_In (d x : Z) (dates : list Z) :
  In x (insert_date d dates) <-> x = d \/ In x dates.
Proof.
  induction dates as [|d' rest IH]; simpl.
  - intuition.
  - destruct (Z.compare_spec d d') as [Heq | Hlt | Hgt]; simpl.
    + subst d'. intuition.
    + intuition.
    + rewrite IH. intuition.
Qed.

Lemma insert_date_sorted (d : Z) (dates : list Z) :
  StronglySorted Z.lt dates -> StronglySorted Z.lt (insert_date d dates).
Proof.
  induction 1 as [|d' rest Hsorted IH Hall]; simpl.
  - constructor; constructor.
  - destruct (Z.compare_spec d d') as [Heq | Hlt | Hgt].
    + now constructor.
    + constructor; [now constructor|].
      constructor; [exact Hlt|].
      eapply Forall_impl; [|exact Hall]. intros x Hx. simpl in Hx. lia.
    + constructor; [exact IH|].
      apply Forall_forall. intros x Hx.
      apply insert_date_In in Hx. destruct Hx as [-> | Hx]; [exact Hgt|].
      rewrite Forall_forall in Hall. now apply Hall.
Qed.

Lemma group_dates_sorted (df : TransactionTable) :
  StronglySorted Z.lt (group_dates df).
Proof.
  unfold group_dates.
  induction (map (fun r => date_of (DateTime r)) df) as [|d ds IH]; simpl.
  - constructor.
  - now apply insert_date_sorted.
Qed.

Lemma group_dates_In (df : TransactionTable) (d : Z) :
  In d (group_dates df) <-> exists r, In r df /\ date_of (DateTime r) = d.
Proof.
  unfold group_dates. induction df as [|r df IH]; simpl.
  - split; [contradiction | now intros [r [[] _]]].
  - rewrite insert_date_In, IH. split.
    + intros [-> | [r' [Hin Hd]]]; [exists r; now split; [left|] | exists r'; now split; [right|]].
    + intros [r' [[<- | Hin] Hd]]; [now left | right; now exists r'].
Qed.

Lemma create_revenue_chart_dates (df : TransactionTable) :
  map fst (create_revenue_chart df) = group_dates df.
Proof.
  destruct df as [|r df]; [reflexivity|].
  unfold create_revenue_chart, daily_revenue. rewrite map_map. apply map_id.
Qed.

(** X7: the chart has one point per calendar date on which the table has a row,
    in ascending order of the dates, and the revenue of a point is the sum of
    the amounts of the rows of its date. *)
Theorem revenue_chart_one_point_per_date (df : TransactionTable) :
  let points := create_revenue_chart df in
  StronglySorted Z.lt (map fst points)
  /\ (forall d, In d (map fst points) <-> exists r, In r df /\ date_of (DateTime r) = d)
  /\ (forall d v, In (d, v) points ->
        v = series_sum
              (map Amount (filter (fun r => Z.eqb (date_of (DateTime r)) d) df))).
Proof.
  cbv zeta. rewrite create_revenue_chart_dates.
  split; [apply group_dates_sorted|].
  split; [apply group_dates_In|].
  intros d v Hin. destruct df as [|r df]; [contradiction|].
  unfold create_revenue_chart, daily_revenue in Hin.
  apply in_map_iff in Hin. destruct Hin as [d' [Heq _]].
  now injection Heq as <- <-.
Qed.

(** The example of the specification: 50 and 70 on one day, 30 on the next. *)
Example two_sales_one_day :
  map (fun p => (fst p, Qred (snd p))) (create_revenue_chart MoreExamples.two_days)
  = [ (20209%Z, 120%Q); (20210%Z, 30%Q) ].
Proof. reflexivity. Qed.

(** ** Columns of the frame built from records *)

Lemma existsb_eqb_In (k : string) (seen : list string) :
  existsb (String.eqb k) seen = true <-> In k seen.
Proof.
  rewrite existsb_exists. split.
  - intros [x [Hin Heq]]. apply String.eqb_eq in Heq. now subst.
  - intros Hin. exists k. split; [exact Hin | apply String.eqb_refl].
Qed.

Lemma add_new_keys_In (ks seen : list string) (x : string) :
  In x (add_new_keys ks seen) <-> In x seen \/ In x ks.
Proof.
  revert seen. induction ks as [|k ks IH]; intros seen; simpl.
  - intuition.
  - destruct (existsb (String.eqb k) seen) eqn:Hseen; rewrite IH.
    + apply existsb_eqb_In in Hseen. intuition (subst; auto).
    + rewrite in_app_iff. simpl. intuition.
Qed.

Lemma add_new_keys_NoDup (ks seen : list string) :
  NoDup seen -> NoDup (add_new_keys ks seen).
Proof.
  revert seen. induction ks as [|k ks IH]; intros seen Hseen; simpl; [exact Hseen|].
  destruct (existsb (String.eqb k) seen) eqn:Hk; apply IH; [exact Hseen|].
  apply NoDup_app; [exact Hseen | repeat constructor; intros [] |].
  intros x Hx [<- | []].
  apply existsb_eqb_In in Hx. congruence.
Qed.

Lemma column_labels_from (data : list Dict.t) (seen : list string) :
  NoDup seen ->
  NoDup (fold_left (fun seen d => add_new_keys (Dict.keys d) seen) data seen)
  /\ (forall x,
        In x (fold_left (fun seen d => add_new_keys (Dict.keys d) seen) data seen) ->
        In x seen \/ exists d, In d data /\ In x (Dict.keys d)).
Proof.
  revert seen. induction data as [|d data IH]; intros seen Hseen; simpl.
  - split; [exact Hseen | now left].
  - destruct (IH _ (add_new_keys_NoDup (Dict.keys d) seen Hseen)) as [Hnodup Hin].
    split; [exact Hnodup|].
    intros x Hx. destruct (Hin x Hx) as [Hnew | [d' [Hd' Hk]]].
    + apply add_new_keys_In in Hnew. destruct Hnew as [Hs | Hk]; [now left|].
      right. exists d. split; [now left | exact Hk].
    + right. exists d'. split; [now right | exact Hk].
Qed.

(** The labels of a frame are distinct, and each is a key of some record. *)
Lemma column_labels_keys (data : list Dict.t) :
  NoDup (column_labels data)
  /\ (forall x, In x (column_labels data) -> exists d, In d data /\ In x (Dict.keys d)).
Proof.
  destruct (column_labels_from data [] (NoDup_nil _)) as [Hnodup Hin].
  split; [exact Hnodup|].
  intros x Hx. destruct (Hin x Hx) as [[] | Hd]. exact Hd.
Qed.

Lemma dict_set_keys (k x : string) (v : value) (d : Dict.t) :
  In x (Dict.keys (Dict.set k v d)) -> x = k \/ In x (Dict.keys d).
Proof.
  unfold Dict.keys. induction d as [|[k' v'] d IH]; simpl.
  - intuition.
  - destruct (String.eqb k' k) eqn:Hk; simpl.
    + apply String.eqb_eq in Hk. subst k'. intuition.
    + intros [Hx | Hx]; [now right; left|].
      destruct (IH Hx) as [Heq | Hin]; [now left | now right; right].
Qed.

Lemma fill_row_dict_keys (clean_headers row : list string) (i : nat) (row_dict : Dict.t)
  (x : string) :
  In x (Dict.keys (fill_row_dict i clean_headers row row_dict)) ->
  In x clean_headers \/ In x (Dict.keys row_dict).
Proof.
  revert i row_dict. induction clean_headers as [|h rest IH]; intros i row_dict; simpl.
  - now right.
  - intros Hx. destruct (IH _ _ Hx) as [Hrest | Hset]; [now left; right|].
    apply dict_set_keys in Hset. destruct Hset as [-> | Hold]; [now left; left | now right].
Qed.

(** Every key of a record of the fallback is one of the first four headers. *)
Lemma raw_grid_fallback_keys (all_values : list (list string)) (d : Dict.t) (x : string) :
  In d (raw_grid_fallback all_values) -> In x (Dict.keys d) ->
  In x (firstn 4 (hd [] all_values)).
Proof.
  unfold raw_grid_fallback.
  destruct (1 <? length all_values); [|contradiction].
  cbv zeta. rewrite collect_rows_filter, clean_headers_firstn. simpl app.
  intros Hd Hx. apply in_map_iff in Hd. destruct Hd as [row [<- _]].
  unfold row_dict_of in Hx. apply fill_row_dict_keys in Hx.
  destruct Hx as [Hx | []]. exact Hx.
Qed.

(** The frame built from the records of the fallback has at most as many
    columns as there are distinct names among the first four headers. *)
Lemma raw_grid_fallback_width (all_values : list (list string)) :
  length (column_labels (raw_grid_fallback all_values))
  <= length (nodup string_dec (firstn 4 (hd [] all_values))).
Proof.
  destruct (column_labels_keys (raw_grid_fallback all_values)) as [Hnodup Hin].
  apply NoDup_incl_length; [exact Hnodup|].
  intros x Hx. destruct (Hin x Hx) as [d [Hd Hk]].
  apply nodup_In. now apply (raw_grid_fallback_keys all_values d).
Qed.

Lemma fetch_fallback (gc : Client) (location month : string) (cfg : LocationConfig)
  (sheet : Spreadsheet) (ws : Worksheet) (e : string) (grid : list (list string)) :
  lookup_location location LOCATIONS = Ok cfg ->
  open gc (sheet_name cfg) = Ok sheet ->
  worksheet sheet month = Ok ws ->
  get_all_records ws = Raise e ->
  contains "duplicates" e = true ->
  get_all_values ws = Ok grid ->
  fetch gc location month = Ok (raw_grid_fallback grid).
Proof.
  intros Hloc Hopen Htab Hrec Hdup Hgrid. unfold fetch.
  rewrite Hloc; cbn [bind]. rewrite Hopen; cbn [bind]. rewrite Htab; cbn [bind].
  now rewrite Hrec, Hdup, Hgrid.
Qed.

(** X9: a retrieval error that mentions duplicates is never shown to the user
    when the raw grid can be read: the frame is the one the records of the
    fallback normalize to. *)
Theorem duplicate_headers_recovered_silently
  (parse_number : string -> option Q) (parse_datetime : list value -> value -> option Z)
  (gc : Client) (location : string) (year : Z) (month : string) (cfg : LocationConfig)
  (sheet : Spreadsheet) (ws : Worksheet) (e : string) (grid : list (list string)) :
  lookup_location location LOCATIONS = Ok cfg ->
  open gc (sheet_name cfg) = Ok sheet ->
  worksheet sheet month = Ok ws ->
  get_all_records ws = Raise e ->
  contains "duplicates" e = true ->
  get_all_values ws = Ok grid ->
  exists df,
    load_sheet_data parse_number parse_datetime gc location year month = (df, [])
    /\ match raw_grid_fallback grid with
       | [] => df = empty_frame
       | _ :: _ =>
           normalize parse_number parse_datetime (raw_grid_fallback grid)
             location year month = Ok df
       end.
Proof.
  intros Hloc Hopen Htab Hrec Hdup Hgrid.
  pose proof (fetch_fallback gc location month cfg sheet ws e grid
                Hloc Hopen Htab Hrec Hdup Hgrid) as Hfetch.
  unfold load_sheet_data, load_sheet_body. rewrite Hfetch; cbn [bind].
  destruct (raw_grid_fallback grid) as [|d data]; [now exists empty_frame|].
  destruct (normalize_total parse_number parse_datetime (d :: data) location year month)
    as [df Hdf].
  rewrite Hdf. now exists df.
Qed.

Lemma duplicate_headers_recovered_silently_witness :
  exists df,
    load_sheet_data Sample.parse_number Sample.parse_datetime
      (Examples.client_of Examples.ragged_sheet) "Aylesbury" 2025 "May 25" = (df, [])
    /\ match raw_grid_fallback Examples.ragged_grid with
       | [] => df = empty_frame
       | _ :: _ =>
           normalize Sample.parse_number Sample.parse_datetime
             (raw_grid_fallback Examples.ragged_grid) "Aylesbury" 2025 "May 25" = Ok df
       end.
Proof.
  eapply (duplicate_headers_recovered_silently Sample.parse_number Sample.parse_datetime
            (Examples.client_of Examples.ragged_sheet) "Aylesbury" 2025 "May 25");
    reflexivity.
Defined.

(** X10: when two of the first four headers have the same text, or there are
    fewer than four headers, the fallback cannot rebuild the four columns:
    the function returns the empty frame, whatever the data rows hold, and
    reports nothing. *)
Theorem duplicate_among_first_four_headers_rejected
  (parse_number : string -> option Q) (parse_datetime : list value -> value -> option Z)
  (gc : Client) (location : string) (year : Z) (month : string) (cfg : LocationConfig)
  (sheet : Spreadsheet) (ws : Worksheet) (e : string) (grid : list (list string)) :
  lookup_location location LOCATIONS = Ok cfg ->
  open gc (sheet_name cfg) = Ok sheet ->
  worksheet sheet month = Ok ws ->
  get_all_records ws = Raise e ->
  contains "duplicates" e = true ->
  get_all_values ws = Ok grid ->
  length (nodup string_dec (firstn 4 (hd [] grid))) < 4 ->
  load_sheet_data parse_number parse_datetime gc location year month = (empty_frame, []).
Proof.
  intros Hloc Hopen Htab Hrec Hdup Hgrid Hfew.
  apply (load_sheet_data_narrow _ _ _ _ _ _ (raw_grid_fallback grid)).
  - now apply (fetch_fallback gc location month cfg sheet ws e grid).
  - pose proof (raw_grid_fallback_width grid). lia.
Qed.

Lemma duplicate_among_first_four_headers_rejected_witness :
  load_sheet_data Sample.parse_number Sample.parse_datetime
    (Examples.client_of MoreExamples.blank_headers_sheet) "Aylesbury" 2025 "May 25"
  = (empty_frame, []).
Proof.
  eapply (duplicate_among_first_four_headers_rejected
            Sample.parse_number Sample.parse_datetime
            (Examples.client_of MoreExamples.blank_headers_sheet)
            "Aylesbury" 2025 "May 25");
    try reflexivity.
  vm_compute. lia.
Defined.

(** ** The schema is positional *)

Lemma add_new_keys_fresh (ks seen : list string) :
  NoDup (seen ++ ks) -> add_new_keys ks seen = seen ++ ks.
Proof.
  revert seen. induction ks as [|k ks IH]; intros seen Hnodup; simpl.
  - now rewrite app_nil_r.
  - destruct (existsb (String.eqb k) seen) eqn:Hk.
    + exfalso. apply existsb_eqb_In in Hk.
      apply NoDup_remove_2 in Hnodup. apply Hnodup, in_or_app. now left.
    + rewrite IH; rewrite <- app_assoc; [reflexivity | exact Hnodup].
Qed.

Lemma add_new_keys_known (ks seen : list string) :
  incl ks seen -> add_new_keys ks seen = seen.
Proof.
  induction ks as [|k ks IH]; intros Hincl; simpl; [reflexivity|].
  assert (Hk : existsb (String.eqb k) seen = true)
    by (apply existsb_eqb_In, Hincl; now left).
  rewrite Hk. apply IH. intros x Hx. apply Hincl. now right.
Qed.

Lemma keys_combine (headers : list string) (row : list value) :
  length headers <= length row -> Dict.keys (combine headers row) = headers.
Proof.
  unfold Dict.keys. revert row.
  induction headers as [|h headers IH]; intros [|v row] Hlen; simpl in *;
    try reflexivity; try lia.
  f_equal. apply IH. lia.
Qed.

Lemma column_labels_keyed (headers : list string) (rows : list (list value)) :
  NoDup headers -> rows <> [] ->
  Forall (fun row => length headers <= length row) rows ->
  column_labels (keyed_records headers rows) = headers.
Proof.
  intros Hnodup Hne Hrows. destruct rows as [|row rows]; [congruence|].
  inversion Hrows as [|? ? Hrow Hrest]; subst.
  unfold column_labels, keyed_records. cbn [map fold_left].
  rewrite keys_combine, add_new_keys_fresh by assumption. cbn [app].
  clear Hne Hrows Hrow. induction Hrest as [|row' rows Hrow' _ IH]; [reflexivity|].
  cbn [map fold_left]. rewrite keys_combine by exact Hrow'.
  rewrite add_new_keys_known by apply incl_refl. exact IH.
Qed.

Lemma get_combine (headers : list string) (row : list value) (i : nat) :
  NoDup headers -> i < length headers -> length headers <= length row ->
  Dict.get (nth i headers "") (combine headers row) = Some (nth i row VNaN).
Proof.
  intros Hnodup. revert row i.
  induction Hnodup as [|h headers Hfresh Hnodup IH]; intros [|v row] i Hi Hlen;
    simpl in *; try lia.
  destruct i as [|i].
  - now rewrite String.eqb_refl.
  - destruct (String.eqb_spec h (nth i headers "")) as [Heq | Hne].
    + exfalso. apply Hfresh. rewrite Heq. apply nth_In. lia.
    + apply IH; lia.
Qed.

Lemma keyed_cell (headers : list string) (rows : list (list value)) (row : list value)
  (i : nat) :
  NoDup headers -> rows <> [] ->
  Forall (fun row => length headers <= length row) rows ->
  In row rows -> i < length headers ->
  raw_cell (keyed_records headers rows) i (combine headers row) = nth i row VNaN.
Proof.
  intros Hnodup Hne Hrows Hin Hi. unfold raw_cell, cell_of.
  rewrite column_labels_keyed by assumption.
  rewrite Forall_forall in Hrows. now rewrite get_combine by auto.
Qed.

Lemma flat_map_map_in {A B C : Type} (f : B -> list C) (g : A -> B) (h : A -> list C)
  (l : list A) (l' : list B) :
  l' = map g l ->
  (forall x, In x l -> f (g x) = h x) -> flat_map f l' = flat_map h l.
Proof.
  intros ->. induction l as [|x l IH]; intros Hext; simpl; [reflexivity|].
  rewrite Hext by now left. f_equal. apply IH. intros y Hy. apply Hext. now right.
Qed.

(** X11: the header texts play no part, and neither do the cells to the right of
    the fourth: for records keyed by distinct headers, at least four, the
    returned rows are made of the first four cells of each data row whose
    first cell parses as a timestamp. *)
Theorem schema_is_positional
  (parse_number : string -> option Q) (parse_datetime : list value -> value -> option Z)
  (gc : Client) (location : string) (year : Z) (month : string)
  (headers : list string) (rows : list (list value)) :
  NoDup headers ->
  4 <= length headers ->
  rows <> [] ->
  Forall (fun row => length headers <= length row) rows ->
  fetch gc location month = Ok (keyed_records headers rows) ->
  load_sheet_data parse_number parse_datetime gc location year month
  = ({| columns := canonical_columns;
        rows :=
          flat_map
            (fun row =>
               match parse_datetime (map (fun r => nth 0 r VNaN) rows) (nth 0 row VNaN) with
               | Some t => [positional_row parse_number location year month row t]
               | None => []
               end) rows |}, []).
Proof.
  intros Hnodup Hwide Hne Hrows Hfetch.
  rewrite (load_sheet_data_wide _ _ _ _ _ _ _ Hfetch)
    by (rewrite column_labels_keyed by assumption; exact Hwide).
  f_equal. f_equal.
  assert (Hcell : forall row i, In row rows -> i < 4 ->
            raw_cell (keyed_records headers rows) i (combine headers row)
            = nth i row VNaN)
    by (intros row i Hin Hi; apply keyed_cell; auto; lia).
  assert (Htimes : raw_timestamps (keyed_records headers rows)
                   = map (fun r => nth 0 r VNaN) rows).
  { unfold raw_timestamps. unfold keyed_records at 2. rewrite map_map.
    apply map_ext_in. intros row Hin. apply Hcell; [exact Hin | lia]. }
  unfold normalized_rows.
  apply (flat_map_map_in _ (combine headers) _ rows _ eq_refl). intros row Hin.
  unfold parsed_timestamp, stamped_row, positional_row.
  rewrite Htimes, !Hcell by (auto; lia). reflexivity.
Qed.

(** The May rows keyed by five one-letter headers. *)
Lemma schema_is_positional_witness :
  load_sheet_data Sample.parse_number Sample.parse_datetime
    (Examples.client_of (MoreExamples.keyed_sheet ["a"; "b"; "c"; "d"; "e"]))
    "Aylesbury" 2025 "May 25"
  = ({| columns := canonical_columns;
        rows :=
          flat_map
            (fun row =>
               match Sample.parse_datetime
                       (map (fun r => nth 0 r VNaN) MoreExamples.may_rows)
                       (nth 0 row VNaN) with
               | Some t =>
                   [positional_row Sample.parse_number "Aylesbury" 2025 "May 25" row t]
               | None => []
               end) MoreExamples.may_rows |}, []).
Proof.
  apply (schema_is_positional Sample.parse_number Sample.parse_datetime
           (Examples.client_of (MoreExamples.keyed_sheet ["a"; "b"; "c"; "d"; "e"]))
           "Aylesbury" 2025 "May 25" ["a"; "b"; "c"; "d"; "e"] MoreExamples.may_rows).
  - repeat constructor; simpl; intuition discriminate.
  - simpl. lia.
  - discriminate.
  - repeat constructor.
  - reflexivity.
Defined.

Example header_text_is_ignored :
  load_sheet_data Sample.parse_number Sample.parse_datetime
    (Examples.client_of (MoreExamples.keyed_sheet MoreExamples.may_headers))
    "Aylesbury" 2025 "May 25"
  = load_sheet_data Sample.parse_number Sample.parse_datetime
      (Examples.client_of (MoreExamples.keyed_sheet ["a"; "b"; "c"; "d"; "e"]))
      "Aylesbury" 2025 "May 25".
Proof. reflexivity. Qed.

(** ** From the sheet to the metrics *)

Lemma length_filter_negb {A : Type} (p : A -> bool) (l : list A) :
  length (filter (fun x => negb (p x)) l) + length (filter p l) = length l.
Proof.
  induction l as [|x l IH]; simpl; [reflexivity|].
  destruct (p x); simpl; lia.
Qed.

(** The rows made of the records whose timestamp parses are well typed when
    the product cells are text, and carry the coerced amounts. *)
Lemma typed_stamped_rows (parsed : Dict.t -> option Z) (product_cell quantity_cell : Dict.t -> value)
  (amount : Dict.t -> Q) (location : string) (year : Z) (month : string)
  (data : list Dict.t) :
  (forall d, In d data -> exists s, product_cell d = VStr s) ->
  exists table,
    rows_of_values
      (flat_map (fun d =>
                   match parsed d with
                   | Some t => [[ VTime t; product_cell d; quantity_cell d;
                                  VFloat (amount d);
                                  VStr location; VInt year; VStr month ]]
                   | None => []
                   end) data) = Some table
    /\ map Amount table
       = map amount (filter (fun d => match parsed d with
                                      | Some _ => true
                                      | None => false
                                      end) data).
Proof.
  induction data as [|d data IH]; intros Htext.
  - now exists [].
  - destruct IH as [table [Hrows Hamounts]];
      [intros d' Hd'; apply Htext; now right|].
    cbn [flat_map filter].
    destruct (parsed d) as [t|]; [|now exists table].
    destruct (Htext d (or_introl eq_refl)) as [s Hs].
    cbn [app rows_of_values row_of_values]. rewrite Hs, Hrows.
    eexists. split; [reflexivity|]. cbn [map Amount]. now rewrite Hamounts.
Qed.

Lemma table_of_canonical_frame (rs : list (list value)) :
  table_of_frame {| columns := canonical_columns; rows := rs |} = rows_of_values rs.
Proof.
  unfold table_of_frame, empty. cbn [columns rows canonical_columns length Nat.eqb orb].
  now destruct rs.
Qed.

(** X12: from the sheet to the metrics: when the retrieved table has the four
    positional columns and its product cells are text, the returned frame is
    a transaction table; every record whose timestamp parses counts as one
    transaction, also when its amount does not parse, and the total revenue
    is the sum of the coerced amounts of those records. *)
Theorem sheet_to_metrics
  (parse_number : string -> option Q) (parse_datetime : list value -> value -> option Z)
  (gc : Client) (location : string) (year : Z) (month : string) (data : list Dict.t) :
  fetch gc location month = Ok data ->
  4 <= length (columns (frame_of_records data)) ->
  (forall d, In d data -> exists s, raw_cell data 1 d = VStr s) ->
  exists table,
    table_of_frame (fst (load_sheet_data parse_number parse_datetime gc location year month))
    = Some table
    /\ transaction_count (calculate_revenue_metrics table)
       + length (filter (timestamp_fails parse_datetime data) data)
       = length data
    /\ (total_revenue (calculate_revenue_metrics table)
        == series_sum
             (map (fun d => coerced_amount parse_number (raw_cell data 3 d))
                (filter (fun d => negb (timestamp_fails parse_datetime data d)) data)))%Q.
Proof.
  intros Hfetch Hwide Htext.
  rewrite (load_sheet_data_wide _ _ _ _ _ _ _ Hfetch Hwide). cbn [fst].
  rewrite table_of_canonical_frame.
  destruct (typed_stamped_rows (parsed_timestamp parse_datetime data)
              (raw_cell data 1) (raw_cell data 2)
              (fun d => coerced_amount parse_number (raw_cell data 3 d))
              location year month data Htext) as [table [Hrows Hamounts]].
  exists table. split; [exact Hrows|].
  assert (Hkept : filter (fun d => match parsed_timestamp parse_datetime data d with
                                   | Some _ => true
                                   | None => false
                                   end) data
                  = filter (fun d => negb (timestamp_fails parse_datetime data d)) data).
  { apply filter_ext. intros d. unfold timestamp_fails.
    now destruct (parsed_timestamp parse_datetime data d). }
  rewrite Hkept in Hamounts.
  assert (Hcount : transaction_count (calculate_revenue_metrics table) = length table)
    by now destruct table.
  assert (Htotal : total_revenue (calculate_revenue_metrics table)
                   = series_sum (map Amount table))
    by now destruct table.
  split.
  - rewrite Hcount, <- (length_map Amount), Hamounts, length_map.
    apply length_filter_negb.
  - now rewrite Htotal, Hamounts.
Qed.

Lemma sheet_to_metrics_witness :
  exists table,
    table_of_frame
      (fst (load_sheet_data Sample.parse_number Sample.parse_datetime
              (Examples.client_of Examples.may_sheet) "Aylesbury" 2025 "May 25"))
    = Some table
    /\ transaction_count (calculate_revenue_metrics table)
       + length (filter (timestamp_fails Sample.parse_datetime Examples.may_records)
                   Examples.may_records)
       = length Examples.may_records
    /\ (total_revenue (calculate_revenue_metrics table)
        == series_sum
             (map (fun d => coerced_amount Sample.parse_number
                              (raw_cell Examples.may_records 3 d))
                (filter (fun d => negb (timestamp_fails Sample.parse_datetime
                                          Examples.may_records d))
                   Examples.may_records)))%Q.
Proof.
  apply (sheet_to_metrics Sample.parse_number Sample.parse_datetime
           (Examples.client_of Examples.may_sheet) "Aylesbury" 2025 "May 25"
           Examples.may_records).
  - reflexivity.
  - vm_compute. lia.
  - intros d [<- | [<- | [<- | []]]]; eexists; reflexivity.
Defined.

(** ** Authentication *)

Section AuthenticationFacts.

Variable Credentials : Type.
Variable secret : string -> result string.
Variable from_service_account_info :
  list (string * string) -> list string -> result Credentials.
Variable authorize : Credentials -> result Client.

Lemma init_gspread_body_reads_fields (gc : Client) :
  init_gspread_body Credentials secret from_service_account_info authorize = Ok gc ->
  forall field, In field credential_fields -> exists v, secret field = Ok v.
Proof.
  unfold init_gspread_body.
  destruct (secret "type") as [v1|] eqn:H1; cbn [bind]; [|discriminate].
  destruct (secret "project_id") as [v2|] eqn:H2; cbn [bind]; [|discriminate].
  destruct (secret "private_key_id") as [v3|] eqn:H3; cbn [bind]; [|discriminate].
  destruct (secret "private_key") as [v4|] eqn:H4; cbn [bind]; [|discriminate].
  destruct (secret "client_email") as [v5|] eqn:H5; cbn [bind]; [|discriminate].
  destruct (secret "client_id") as [v6|] eqn:H6; cbn [bind]; [|discriminate].
  destruct (secret "auth_uri") as [v7|] eqn:H7; cbn [bind]; [|discriminate].
  destruct (secret "token_uri") as [v8|] eqn:H8; cbn [bind]; [|discriminate].
  intros _ field Hin. unfold credential_fields in Hin. simpl in Hin.
  repeat (destruct Hin as [<- | Hin]; [eauto|]). contradiction.
Qed.

(** X13: [init_gspread] returns in every case.  It returns a client, and shows
    nothing, only if each of the eight fields of the service account can be
    read; when any of them is missing, or the credentials are refused, it
    returns no client and shows one error that starts with [Authentication
    failed: ]. *)
Theorem init_gspread_needs_every_field :
  let outcome := init_gspread Credentials secret from_service_account_info authorize in
  (forall field e,
      In field credential_fields -> secret field = Raise e -> fst outcome = None)
  /\ (forall gc,
        fst outcome = Some gc ->
        snd outcome = []
        /\ exists credentials,
             authorize credentials = Ok gc
             /\ exists info, from_service_account_info info scopes = Ok credentials)
  /\ (fst outcome = None ->
      exists e, snd outcome = [("Authentication failed: " ++ e)%string]).
Proof.
  cbv zeta. unfold init_gspread.
  destruct (init_gspread_body Credentials secret from_service_account_info authorize)
    as [gc | e] eqn:Hbody; cbn [fst snd].
  - split; [|split].
    + intros field e Hin Hraise.
      destruct (init_gspread_body_reads_fields gc Hbody field Hin) as [v Hv]. congruence.
    + intros gc' [= <-]. split; [reflexivity|].
      revert Hbody. unfold init_gspread_body.
      repeat match goal with
             | |- context [bind (secret ?f) _] => destruct (secret f); cbn [bind]; [|discriminate]
             end.
      match goal with
      | |- context [from_service_account_info ?info scopes] =>
          destruct (from_service_account_info info scopes) as [credentials|] eqn:Hinfo;
          cbn [bind]; [|discriminate]
      end.
      intros Hauth. exists credentials. split; [exact Hauth|]. eexists. exact Hinfo.
    + discriminate.
  - split; [|split].
    + reflexivity.
    + discriminate.
    + intros _. now exists e.
Qed.

End AuthenticationFacts.

(** Secrets without a private key: no client, one error. *)
Example missing_private_key :
  init_gspread unit MoreExamples.secrets_without_key
    (fun _ _ => Ok tt) (fun _ => Ok Examples.offline_client)
  = (None, ["Authentication failed: private_key"]).
Proof. reflexivity. Qed.

(** ** The selectors of [main] *)

(** X15: whatever the user selects, the selectors of [main] find what they look
    up: every location offered has a configuration with at least one year,
    the preselected year (the last of the list) is the most recent one,
    every year offered has a list of months with at least one label, and the
    preselected indices are within the lists. *)
Theorem selectors_find_their_options (location : string) :
  In location location_options ->
  exists ys,
    available_years location = Some ys
    /\ (0 <= default_index ys < Z.of_nat (length ys))%Z
    /\ (forall year, In year ys ->
          (year <= nth (Z.to_nat (default_index ys)) ys 0)%Z
          /\ exists labels,
               available_months location year = Some labels
               /\ (0 <= default_index labels < Z.of_nat (length labels))%Z).
Proof.
  intros Hin. unfold location_options in Hin. simpl in Hin.
  repeat (destruct Hin as [<- | Hin];
          [eexists; split; [reflexivity|]; split; [vm_compute; intuition discriminate|];
           intros year Hyear; simpl in Hyear;
           repeat (destruct Hyear as [<- | Hyear];
                   [split; [vm_compute; discriminate|];
                    eexists; split; [reflexivity | vm_compute; intuition discriminate]|]);
           contradiction|]).
  contradiction.
Qed.

Lemma selectors_find_their_options_witness :
  exists ys,
    available_years "Aylesbury" = Some ys
    /\ (0 <= default_index ys < Z.of_nat (length ys))%Z
    /\ (forall year, In year ys ->
          (year <= nth (Z.to_nat (default_index ys)) ys 0)%Z
          /\ exists labels,
               available_months "Aylesbury" year = Some labels
               /\ (0 <= default_index labels < Z.of_nat (length labels))%Z).
Proof.
  apply (selectors_find_their_options "Aylesbury"). vm_compute. tauto.
Defined.
